(** * SmartPantry backend: the authentication layer

    A shallow embedding of [backend/app/core/auth.py] (self-issued bearer
    tokens), [backend/app/core/auth_b2c.py] (tokens of the external identity
    provider) and of the [User] model of [backend/app/models/user.py],
    followed by the properties of that layer.

    Conventions of the embedding.
    - Python functions that read the clock, mutate a dictionary, touch the
      key-set cache or send a request are written in a state-and-exception
      monad [M] over a [world]; functions that do neither are written in the
      exception monad [result].
    - [try: ... except E: ...] is [try_except]; a handler re-raises what it
      does not catch.  A raised exception keeps the mutations made so far.
    - Cryptography is symbolic: a signed token records the key that signed
      it, a password hash records the secret it was derived from.
    - The clock counts whole seconds, the resolution of the numeric dates
      [exp]/[nbf]/[iat] of a token. *)

From stdpp Require Import gmap strings list fin_maps pretty.

Open Scope Z_scope.

#[local] Set Warnings "-register-all".

(** ** Python values, exceptions and the two monads *)

Module Py.

(** JSON-shaped Python values: what a claim set, a keyword argument or a
    preferences dictionary can hold. *)
Inductive value : Type :=
| VNone
| VBool (b : bool)
| VInt (z : Z)
| VStr (s : string)
| VList (l : list value)
| VDict (d : list (string * value)).

(** Truthiness, as used by [if x], [not x] and [x or y]. *)
Definition truthy (v : value) : bool :=
  match v with
  | VNone => false
  | VBool b => b
  | VInt z => negb (z =? 0)
  | VStr s => negb (String.eqb s "")
  | VList l => match l with [] => false | _ => true end
  | VDict d => match d with [] => false | _ => true end
  end.

(** [x or y] *)
Definition py_or (x y : value) : value := if truthy x then x else y.

(** [repr(v)] and [str(v)], the latter as an f-string formats a value. *)
Fixpoint py_repr (v : value) : string :=
  match v with
  | VNone => "None"
  | VBool b => if b then "True" else "False"
  | VInt z => pretty z
  | VStr s => "'" +:+ s +:+ "'"
  | VList l =>
      "[" +:+
      (fix items (l : list value) : string :=
         match l with
         | [] => ""
         | x :: r => py_repr x +:+ match r with [] => "" | _ => ", " +:+ items r end
         end) l +:+ "]"
  | VDict d =>
      "{" +:+
      (fix items (d : list (string * value)) : string :=
         match d with
         | [] => ""
         | (k, x) :: r => "'" +:+ k +:+ "': " +:+ py_repr x +:+
                          match r with [] => "" | _ => ", " +:+ items r end
         end) d +:+ "}"
  end.

Definition py_str (v : value) : string :=
  match v with
  | VStr s => s
  | _ => py_repr v
  end.

(** Whitespace as [str.strip()] sees it, and [s.strip()]. *)
Definition is_space (a : Ascii.ascii) : bool :=
  let n := Ascii.nat_of_ascii a in
  (Nat.eqb n 32 || (Nat.leb 9 n && Nat.leb n 13) || (Nat.leb 28 n && Nat.leb n 31))%bool.

Fixpoint lstrip_chars (l : list Ascii.ascii) : list Ascii.ascii :=
  match l with
  | [] => []
  | a :: r => if is_space a then lstrip_chars r else l
  end.

Definition strip (s : string) : string :=
  String.string_of_list_ascii
    (rev (lstrip_chars (rev (lstrip_chars (String.list_ascii_of_string s))))).

(** [d.get(k)] and [d.get(k, dflt)] on a dictionary with string keys. *)
Definition dict_get (d : gmap string value) (k : string) : value :=
  default VNone (d !! k).
Definition dict_get_default (d : gmap string value) (k : string) (dflt : value) : value :=
  default dflt (d !! k).

(** Exceptions.  Every constructor is a subclass of [Exception]; the
    families matched by the [except] clauses of the program are given by
    the [is_*] tests below. *)
Inductive exn : Type :=
(* fastapi *)
| HTTPException (status_code : Z) (detail : string)
(* python-jose: JWTError and its two subclasses *)
| JWTError (msg : string)
| JoseExpiredSignatureError (msg : string)
| JWTClaimsError (msg : string)
(* PyJWT: InvalidTokenError and its subclasses; InvalidKeyError is not one *)
| InvalidTokenError (msg : string)
| DecodeError (msg : string)
| InvalidSignatureError (msg : string)
| ExpiredSignatureError (msg : string)
| InvalidAudienceError (msg : string)
| InvalidIssuerError (msg : string)
| InvalidAlgorithmError (msg : string)
| MissingRequiredClaimError (msg : string)
| InvalidKeyError (msg : string)
(* passlib *)
| UnknownHashError (msg : string)
(* pydantic: the fields that failed validation *)
| ValidationError (fields : list string)
(* requests *)
| RequestsConnectionError (msg : string)
| RequestsHTTPError (status : Z)
| JSONDecodeError (msg : string)
(* builtins *)
| AttributeError (msg : string)
| TypeError (msg : string)
| ValueError (msg : string)
| KeyError (msg : string)
| IndexError (msg : string).

(** [isinstance(e, jose.JWTError)] *)
Definition is_JWTError (e : exn) : bool :=
  match e with
  | JWTError _ | JoseExpiredSignatureError _ | JWTClaimsError _ => true
  | _ => false
  end.

(** [isinstance(e, jwt.ExpiredSignatureError)] *)
Definition is_ExpiredSignatureError (e : exn) : bool :=
  match e with ExpiredSignatureError _ => true | _ => false end.

(** [isinstance(e, jwt.InvalidTokenError)] *)
Definition is_InvalidTokenError (e : exn) : bool :=
  match e with
  | InvalidTokenError _ | DecodeError _ | InvalidSignatureError _
  | ExpiredSignatureError _ | InvalidAudienceError _ | InvalidIssuerError _
  | InvalidAlgorithmError _ | MissingRequiredClaimError _ => true
  | _ => false
  end.

(** [isinstance(e, HTTPException)] *)
Definition is_HTTPException (e : exn) : bool :=
  match e with HTTPException _ _ => true | _ => false end.

(** [isinstance(e, ValueError)] *)
Definition is_ValueError (e : exn) : bool :=
  match e with ValueError _ => true | _ => false end.

Definition HTTP_401_UNAUTHORIZED : Z := 401.
Definition HTTP_500_INTERNAL_SERVER_ERROR : Z := 500.

(** The outcome of a call: a value or a raised exception. *)
Inductive result (A : Type) : Type :=
| Ok (a : A)
| Raise (e : exn).
Arguments Ok {A} a.
Arguments Raise {A} e.

(** [x + y] *)
Definition py_add (x y : value) : result value :=
  match x, y with
  | VStr a, VStr b => Ok (VStr (a +:+ b))
  | VInt a, VInt b => Ok (VInt (a + b))
  | VList a, VList b => Ok (VList (a ++ b))
  | _, _ => Raise (TypeError "unsupported operand type(s) for +")
  end.

(** [x[0]] *)
Definition py_index0 (x : value) : result value :=
  match x with
  | VList (v :: _) => Ok v
  | VList [] => Raise (IndexError "list index out of range")
  | VStr (String a _) => Ok (VStr (String a EmptyString))
  | VStr EmptyString => Raise (IndexError "string index out of range")
  | VDict _ => Raise (KeyError "0")
  | _ => Raise (TypeError "object is not subscriptable")
  end.

Definition rbind {A B : Type} (r : result A) (k : A -> result B) : result B :=
  match r with
  | Ok a => k a
  | Raise e => Raise e
  end.

Definition rcatch {A : Type} (r : result A) (handler : exn -> result A) : result A :=
  match r with
  | Ok a => Ok a
  | Raise e => handler e
  end.

(** [int(s)] for a string, [None] where it raises [ValueError]: optional
    whitespace around an optional sign and decimal digits, with single
    underscores allowed between digits.  The text is read as ASCII; the
    decimal digits of other scripts are not told apart from letters. *)
Definition digit_of (a : Ascii.ascii) : option Z :=
  let n := Ascii.nat_of_ascii a in
  if (Nat.leb 48 n && Nat.leb n 57)%bool then Some (Z.of_nat (n - 48)) else None.

Inductive digit_state : Type :=
| AtStart
| AfterDigit
| AfterUnderscore.

Fixpoint digits_value (st : digit_state) (acc : Z) (l : list Ascii.ascii) : option Z :=
  match l with
  | [] => match st with AfterDigit => Some acc | _ => None end
  | a :: r =>
      match digit_of a with
      | Some d => digits_value AfterDigit (10 * acc + d) r
      | None =>
          if Nat.eqb (Ascii.nat_of_ascii a) 95
          then match st with
               | AfterDigit => digits_value AfterUnderscore acc r
               | _ => None
               end
          else None
      end
  end.

Definition py_int_of_str (s : string) : option Z :=
  match String.list_ascii_of_string (strip s) with
  | [] => None
  | a :: r =>
      if Nat.eqb (Ascii.nat_of_ascii a) 45 then Z.opp <$> digits_value AtStart 0 r
      else if Nat.eqb (Ascii.nat_of_ascii a) 43 then digits_value AtStart 0 r
      else digits_value AtStart 0 (a :: r)
  end.

(** [type(v).__name__] *)
Definition type_name (v : value) : string :=
  match v with
  | VNone => "NoneType"
  | VBool _ => "bool"
  | VInt _ => "int"
  | VStr _ => "str"
  | VList _ => "list"
  | VDict _ => "dict"
  end.

(** [int(v)]: the number itself, a boolean as 0 or 1, a string parsed;
    [ValueError] for a string that is no number and [TypeError] for [None],
    a list or a dictionary. *)
Definition py_int (v : value) : result Z :=
  match v with
  | VInt z => Ok z
  | VBool b => Ok (if b then 1 else 0)
  | VStr s => match py_int_of_str s with
              | Some z => Ok z
              | None => Raise (ValueError ("invalid literal for int() with base 10: "
                                           +:+ py_repr v))
              end
  | _ => Raise (TypeError ("int() argument must be a string, a bytes-like object or "
                           +:+ "a real number, not '" +:+ type_name v +:+ "'"))
  end.

(** [len(s)] of a string held as UTF-8: its characters, that is, the bytes
    that do not continue a character. *)
Definition is_continuation_byte (a : Ascii.ascii) : bool :=
  let n := Ascii.nat_of_ascii a in (Nat.leb 128 n && Nat.leb n 191)%bool.

Definition py_len (s : string) : nat :=
  length (List.filter (fun a => negb (is_continuation_byte a))
            (String.list_ascii_of_string s)).

End Py.
Export Py.

Notation "'let?' x ':=' r 'in' k" := (rbind r (fun x => k))
  (at level 10, x name, r at level 100, k at level 200).

(** ** The world the program runs in *)

Module World.

(** References to dictionary objects. *)
Definition loc : Type := nat.

(** A JSON Web Key as the discovery endpoint publishes it.  [jwk_material]
    names the public key; it is [None] for an entry that
    [RSAAlgorithm.from_jwk] refuses. *)
Record jwk : Type := JWK {
  jwk_kid : option string;
  jwk_material : option string
}.

(** The key-set document: a JSON object whose ["keys"] member may be absent. *)
Record JWKS : Type := MkJWKS {
  jwks_keys : option (list jwk)
}.

(** The body of a response: text that is not JSON, the JSON value [null],
    or a key-set document. *)
Inductive http_body : Type :=
| NotJson
| JsonNull
| JsonDoc (doc : JWKS).

(** What one GET on the discovery URL can do: fail to connect, or answer
    with a status code and a body. *)
Inductive http_outcome : Type :=
| ConnectionFailed
| Response (status : Z) (body : http_body).

Record world : Type := MkWorld {
  clock : Z;                                   (* datetime.utcnow() *)
  heap : gmap loc (gmap string value);         (* the dict objects alive *)
  b2c_jwks : option JWKS;                      (* b2c_auth._jwks *)
  http_log : list (string * http_outcome);     (* GETs sent so far, oldest first *)
  endpoint : nat -> http_outcome               (* what the n-th GET will meet *)
}.

Definition set_heap (h : gmap loc (gmap string value)) (w : world) : world :=
  MkWorld (clock w) h (b2c_jwks w) (http_log w) (endpoint w).
Definition set_b2c_jwks (c : option JWKS) (w : world) : world :=
  MkWorld (clock w) (heap w) c (http_log w) (endpoint w).
Definition set_http_log (l : list (string * http_outcome)) (w : world) : world :=
  MkWorld (clock w) (heap w) (b2c_jwks w) l (endpoint w).
Definition set_clock (t : Z) (w : world) : world :=
  MkWorld t (heap w) (b2c_jwks w) (http_log w) (endpoint w).

(** Computations that may read and change the world and may raise. *)
Definition M (A : Type) : Type := world -> result A * world.

Definition ret {A : Type} (a : A) : M A := fun w => (Ok a, w).
Definition raise {A : Type} (e : exn) : M A := fun w => (Raise e, w).
Definition bind {A B : Type} (m : M A) (k : A -> M B) : M B :=
  fun w => match m w with
           | (Ok a, w') => k a w'
           | (Raise e, w') => (Raise e, w')
           end.
Definition lift {A : Type} (r : result A) : M A := fun w => (r, w).

(** [try: body  except ...: handler]; the handler decides by itself which
    exceptions it lets through. *)
Definition try_except {A : Type} (body : M A) (handler : exn -> M A) : M A :=
  fun w => match body w with
           | (Ok a, w') => (Ok a, w')
           | (Raise e, w') => handler e w'
           end.

(** [datetime.utcnow()] *)
Definition utcnow : M Z := fun w => (Ok (clock w), w).

(** Dictionary objects.  A reference held by the program always points to
    a live object; the [KeyError] of a dangling one is there to make the
    operations total. *)
Definition dict_read (d : loc) : M (gmap string value) :=
  fun w => match heap w !! d with
           | Some c => (Ok c, w)
           | None => (Raise (KeyError "no such object"), w)
           end.

(** [d.copy()]: a new object with the entries of [d]. *)
Definition dict_copy (d : loc) : M loc :=
  fun w => match heap w !! d with
           | Some c => let l := fresh (dom (heap w)) in
                       (Ok l, set_heap (<[l := c]> (heap w)) w)
           | None => (Raise (KeyError "no such object"), w)
           end.

(** [d.update({k: v})]: in place. *)
Definition dict_update (d : loc) (k : string) (v : value) : M unit :=
  fun w => match heap w !! d with
           | Some c => (Ok tt, set_heap (<[d := <[k := v]> c]> (heap w)) w)
           | None => (Raise (KeyError "no such object"), w)
           end.

(** An [async def] that was called: a coroutine object holding the body,
    which runs only when the object is awaited. *)
Inductive coroutine (A : Type) : Type :=
| Coroutine (body : M A).
Arguments Coroutine {A} body.

(** [await c] *)
Definition await {A : Type} (c : coroutine A) : M A :=
  match c with Coroutine body => body end.

(** Any attribute access on a coroutine object, such as [c.get(...)]. *)
Definition coroutine_getattr {A B : Type} (c : coroutine A) (attr : string) : result B :=
  Raise (AttributeError ("'coroutine' object has no attribute '" +:+ attr +:+ "'")).

End World.
Export World.

Notation "x <- m ;; k" := (bind m (fun x => k))
  (at level 100, m at next level, k at level 200, right associativity).
Notation "m ;;; k" := (bind m (fun _ => k))
  (at level 100, k at level 200, right associativity).

(** ** The libraries the program calls

    The third-party packages are not part of the repository; each is
    modelled by the part of its documented behaviour that the program
    exercises. *)

(** Symbolic bearer tokens, shared by python-jose and PyJWT: a string that is
    not a compact JWS, or a header, a claim set and the key that produced the
    signature. *)
Module Jwt.

Record jws : Type := JWS {
  jws_alg : string;
  jws_kid : option string;
  jws_payload : gmap string value;
  jws_signed_with : string
}.

Inductive token : Type :=
| Garbage (raw : string)
| Compact (t : jws).

Definition is_str (v : value) : bool :=
  match v with VStr _ => true | _ => false end.

(** The audiences a token names: a string or a list of strings. *)
Definition audience_list (v : value) : option (list string) :=
  match v with
  | VStr s => Some [s]
  | VList l => mapM (fun c => match c with VStr s => Some s | _ => None end) l
  | _ => None
  end.

End Jwt.
Export Jwt.

(** python-jose, as [from jose import JWTError, jwt]. *)
Module jose.

(** [jwt.encode(claims, key, algorithm=...)].  A [datetime] under ["exp"] is
    stored as its numeric date; with the clock in seconds that is the same
    integer. *)
Definition encode (claims : gmap string value) (key algorithm : string) : token :=
  Compact (JWS algorithm None claims key).

(** The three numeric dates are converted with [int(...)] inside
    [try: ... except ValueError: raise JWTClaimsError(...)]: a value that
    [int] refuses with another exception lets that exception through. *)
Definition int_claim (v : value) (message : string) : result Z :=
  rcatch (py_int v)
         (fun e => if is_ValueError e then Raise (JWTClaimsError message) else Raise e).

Definition validate_iat (claims : gmap string value) : result unit :=
  match claims !! "iat" with
  | None => Ok tt
  | Some v =>
      let? _ := int_claim v "Issued At claim (iat) must be an integer." in
      Ok tt
  end.

Definition validate_nbf (now : Z) (claims : gmap string value) : result unit :=
  match claims !! "nbf" with
  | None => Ok tt
  | Some v =>
      let? nbf := int_claim v "Not Before claim (nbf) must be an integer." in
      if now <? nbf
      then Raise (JWTClaimsError "The token is not yet valid (nbf)")
      else Ok tt
  end.

Definition validate_exp (now : Z) (claims : gmap string value) : result unit :=
  match claims !! "exp" with
  | None => Ok tt
  | Some v =>
      let? exp := int_claim v "Expiration Time claim (exp) must be an integer." in
      if exp <? now
      then Raise (JoseExpiredSignatureError "Signature has expired.")
      else Ok tt
  end.

(** With no expected audience, a token that names an audience is refused. *)
Definition validate_aud (audience : option string) (claims : gmap string value) : result unit :=
  match claims !! "aud" with
  | None => Ok tt
  | Some v => match audience_list v with
              | None => Raise (JWTClaimsError "Invalid claim format in token")
              | Some auds =>
                  match audience with
                  | Some a => if bool_decide (a ∈ auds) then Ok tt
                              else Raise (JWTClaimsError "Invalid audience")
                  | None => Raise (JWTClaimsError "Invalid audience")
                  end
              end
  end.

Definition validate_iss (issuer : option string) (claims : gmap string value) : result unit :=
  match issuer with
  | None => Ok tt
  | Some i => match claims !! "iss" with
              | Some (VStr s) => if String.eqb s i then Ok tt
                                 else Raise (JWTClaimsError "Invalid issuer")
              | _ => Raise (JWTClaimsError "Invalid issuer")
              end
  end.

Definition validate_sub (claims : gmap string value) : result unit :=
  match claims !! "sub" with
  | None => Ok tt
  | Some v => if is_str v then Ok tt
              else Raise (JWTClaimsError "Subject must be a string.")
  end.

Definition validate_jti (claims : gmap string value) : result unit :=
  match claims !! "jti" with
  | None => Ok tt
  | Some v => if is_str v then Ok tt
              else Raise (JWTClaimsError "JWT ID must be a string.")
  end.

Definition validate_at_hash (claims : gmap string value) : result unit :=
  match claims !! "at_hash" with
  | None => Ok tt
  | Some _ => Raise (JWTClaimsError "No access_token provided to compare against at_hash claim.")
  end.

(** The registered claims other than [exp], as [decode] checks them when it
    is given no audience and no issuer. *)
Definition validate_other_claims (claims : gmap string value) : result unit :=
  let? _ := validate_aud None claims in
  let? _ := validate_iss None claims in
  let? _ := validate_sub claims in
  let? _ := validate_jti claims in
  validate_at_hash claims.

Definition validate_claims (now : Z) (claims : gmap string value) : result unit :=
  let? _ := validate_iat claims in
  let? _ := validate_nbf now claims in
  let? _ := validate_exp now claims in
  validate_other_claims claims.

(** [jwt.decode(token, key, algorithms=[...])]: the signature, then the
    registered claims.  What the library raises itself is a [JWTError]; the
    [TypeError] of a numeric date that is [null], a list or an object is
    not. *)
Definition decode (tok : token) (key : string) (algorithms : list string)
  : M (gmap string value) :=
  match tok with
  | Garbage _ => raise (JWTError "Error decoding token headers.")
  | Compact t =>
      if negb (bool_decide (jws_alg t ∈ algorithms))
      then raise (JWTError "The specified alg value is not allowed")
      else if negb (String.eqb (jws_signed_with t) key)
      then raise (JWTError "Signature verification failed.")
      else
        now <- utcnow ;;
        lift (validate_claims now (jws_payload t)) ;;;
        ret (jws_payload t)
  end.

End jose.

(** passlib, as [CryptContext(schemes=["bcrypt"], deprecated="auto")]. *)
Module passlib.

(** A stored hash, which is a string: a well-formed bcrypt hash of [secret]
    under [salt]; a string that starts like a bcrypt hash ([$2a$], [$2b$],
    [$2y$]) and is not one; or a string that no configured scheme
    recognises. *)
Inductive stored_hash : Type :=
| BcryptHash (salt : string) (secret : string)
| MalformedBcrypt (raw : string)
| Unidentified (raw : string).

Record CryptContext : Type := MkCryptContext {
  schemes : list string
}.

(** The secrets the context takes: text without a NUL byte and of at most
    4096 characters.  For any other secret [hash] and [verify] raise; the
    functions below are about the secrets that are taken. *)
Definition accepted_secret (secret : string) : bool :=
  (forallb (fun a => negb (Nat.eqb (Ascii.nat_of_ascii a) 0))
     (String.list_ascii_of_string secret)
   && Nat.leb (String.length secret) 4096)%bool.

(** What bcrypt reads of a secret: its first 72 bytes. *)
Definition bcrypt_input (secret : string) : string :=
  String.substring 0 72 secret.

(** [ctx.verify(secret, hash)]: for a bcrypt hash, whether bcrypt maps the
    secret to the same digest; [ValueError] for a hash that is identified as
    bcrypt and is malformed; a hash that cannot be identified raises
    [UnknownHashError]. *)
Definition verify (ctx : CryptContext) (secret : string) (h : stored_hash) : result bool :=
  match h with
  | BcryptHash _ s =>
      if bool_decide ("bcrypt" ∈ schemes ctx)
      then Ok (String.eqb (bcrypt_input secret) (bcrypt_input s))
      else Raise (UnknownHashError "hash could not be identified")
  | MalformedBcrypt _ =>
      if bool_decide ("bcrypt" ∈ schemes ctx)
      then Raise (ValueError "malformed bcrypt hash")
      else Raise (UnknownHashError "hash could not be identified")
  | Unidentified _ => Raise (UnknownHashError "hash could not be identified")
  end.

End passlib.

(** PyJWT, as [import jwt] in the federated verifier. *)
Module pyjwt.

Record header : Type := MkHeader {
  header_alg : string;
  header_kid : option string
}.

(** [jwt.get_unverified_header(token)] *)
Definition get_unverified_header (tok : token) : result header :=
  match tok with
  | Garbage _ => Raise (DecodeError "Not enough segments")
  | Compact t => Ok (MkHeader (jws_alg t) (jws_kid t))
  end.

(** [jwt.algorithms.RSAAlgorithm.from_jwk(json.dumps(jwk))] *)
Definition from_jwk (k : jwk) : result string :=
  match jwk_material k with
  | Some pk => Ok pk
  | None => Raise (InvalidKeyError "Not a public or private key")
  end.

Definition validate_exp (now : Z) (claims : gmap string value) : result unit :=
  match claims !! "exp" with
  | None => Ok tt
  | Some v =>
      let? exp :=
        rcatch (py_int v)
               (fun e => if is_ValueError e
                         then Raise (DecodeError "Expiration Time claim (exp) must be an integer.")
                         else Raise e) in
      if exp <=? now
      then Raise (ExpiredSignatureError "Signature has expired")
      else Ok tt
  end.

Definition validate_iss (issuer : string) (claims : gmap string value) : result unit :=
  match claims !! "iss" with
  | None => Raise (MissingRequiredClaimError "iss")
  | Some (VStr s) => if String.eqb s issuer then Ok tt
                     else Raise (InvalidIssuerError "Invalid issuer")
  | Some _ => Raise (InvalidIssuerError "Invalid issuer")
  end.

Definition validate_aud (audience : string) (claims : gmap string value) : result unit :=
  match claims !! "aud" with
  | None => Raise (MissingRequiredClaimError "aud")
  | Some v => match audience_list v with
              | None => Raise (InvalidAudienceError "Invalid claim format in token")
              | Some auds => if bool_decide (audience ∈ auds) then Ok tt
                             else Raise (InvalidAudienceError "Audience doesn't match")
              end
  end.

(** [jwt.decode(token, key, algorithms=[...], audience=..., issuer=...,
    options={verify_signature, verify_aud, verify_iss, verify_exp})] *)
Definition decode (tok : token) (key : string) (algorithms : list string)
    (audience issuer : string) : M (gmap string value) :=
  match tok with
  | Garbage _ => raise (DecodeError "Not enough segments")
  | Compact t =>
      if negb (bool_decide (jws_alg t ∈ algorithms))
      then raise (InvalidAlgorithmError "The specified alg value is not allowed")
      else if negb (String.eqb (jws_signed_with t) key)
      then raise (InvalidSignatureError "Signature verification failed")
      else
        now <- utcnow ;;
        lift (validate_exp now (jws_payload t)) ;;;
        lift (validate_iss issuer (jws_payload t)) ;;;
        lift (validate_aud audience (jws_payload t)) ;;;
        ret (jws_payload t)
  end.

End pyjwt.

(** requests, as [requests.get(url)], [raise_for_status()] and [json()]. *)
Module requests.

Definition get (url : string) : M (Z * http_body) :=
  fun w =>
    let outcome := endpoint w (length (http_log w)) in
    let w' := set_http_log (http_log w ++ [(url, outcome)]) w in
    match outcome with
    | ConnectionFailed => (Raise (RequestsConnectionError url), w')
    | Response status body => (Ok (status, body), w')
    end.

Definition raise_for_status (response : Z * http_body) : result unit :=
  if (400 <=? response.1) && (response.1 <? 600)
  then Raise (RequestsHTTPError response.1)
  else Ok tt.

(** [response.json()]: [null] is Python's [None]. *)
Definition json (response : Z * http_body) : result (option JWKS) :=
  match response.2 with
  | JsonDoc doc => Ok (Some doc)
  | JsonNull => Ok None
  | NotJson => Raise (JSONDecodeError "Expecting value")
  end.

End requests.

(** ** [app/core/config.py] *)

Module config.

(** The settings the authentication layer reads. *)
Record Settings : Type := MkSettings {
  secret_key : string;
  algorithm : string;
  access_token_expire_minutes : Z;
  azure_b2c_tenant_name : string;
  azure_b2c_client_id : string;
  azure_b2c_policy_name : string
}.

(** The values of the class body, used when the environment sets nothing. *)
Definition default_settings : Settings :=
  {| secret_key := "your-secret-key-here";
     algorithm := "HS256";
     access_token_expire_minutes := 30;
     azure_b2c_tenant_name := "your-b2c-tenant-name";
     azure_b2c_client_id := "your-b2c-client-id";
     azure_b2c_policy_name := "B2C_1_signupsignin" |}.

End config.
Export config.

(** ** [app/models/user.py] *)

Module models_user.

(** [class User(UserBase)]: the two fields of [UserBase], then its own. *)
Record User : Type := MkUser {
  email : string;
  name : string;
  id : string;
  household_id : option string;
  preferences : list (string * value);
  created_at : Z;
  updated_at : Z
}.

Section Validation.

(** The syntax check behind [EmailStr] (the email-validator package). *)
Variable validate_email : string -> bool.

(** The form in which [EmailStr] keeps an address it accepted: the domain,
    what follows the last [@], in lower case.  Addresses are read as ASCII
    text. *)
Definition lower (a : Ascii.ascii) : Ascii.ascii :=
  let n := Ascii.nat_of_ascii a in
  if (Nat.leb 65 n && Nat.leb n 90)%bool then Ascii.ascii_of_nat (n + 32) else a.

Fixpoint lower_until_at (l : list Ascii.ascii) : list Ascii.ascii :=
  match l with
  | [] => []
  | a :: r => if Nat.eqb (Ascii.nat_of_ascii a) 64 then l else lower a :: lower_until_at r
  end.

Definition normalized (address : string) : string :=
  String.string_of_list_ascii
    (rev (lower_until_at (rev (String.list_ascii_of_string address)))).

(** One validator per declared field: [inl] the validated value, [inr] the
    name of the field when the keyword argument is missing or invalid. *)

(** [email: EmailStr], required *)
Definition field_email (kwargs : gmap string value) : string + string :=
  match kwargs !! "email" with
  | Some (VStr s) => if validate_email s then inl (normalized s) else inr "email"
  | _ => inr "email"
  end.

(** [name: str = Field(..., min_length=1, max_length=100)], required; the
    bounds count characters. *)
Definition field_name (kwargs : gmap string value) : string + string :=
  match kwargs !! "name" with
  | Some (VStr s) =>
      if (Nat.leb 1 (py_len s) && Nat.leb (py_len s) 100)%bool
      then inl s else inr "name"
  | _ => inr "name"
  end.

(** [id: str], required *)
Definition field_id (kwargs : gmap string value) : string + string :=
  match kwargs !! "id" with
  | Some (VStr s) => inl s
  | _ => inr "id"
  end.

(** [household_id: Optional[str] = None] *)
Definition field_household_id (kwargs : gmap string value) : option string + string :=
  match kwargs !! "household_id" with
  | None | Some VNone => inl None
  | Some (VStr s) => inl (Some s)
  | Some _ => inr "household_id"
  end.

(** [preferences: Dict[str, Any] = {}] *)
Definition field_preferences (kwargs : gmap string value)
  : list (string * value) + string :=
  match kwargs !! "preferences" with
  | None => inl []
  | Some (VDict d) => inl d
  | Some _ => inr "preferences"
  end.

(** [created_at: datetime] and [updated_at: datetime], both required (no
    default).  Of the values the field takes, the numeric timestamp is
    represented: seconds up to 2 * 10^10 in absolute value, milliseconds
    beyond, refused when past the year 9999 or before the year 1.  A date
    written out as text is not represented. *)
Definition field_datetime (field : string) (kwargs : gmap string value) : Z + string :=
  match kwargs !! field with
  | Some (VInt z) =>
      if Z.abs z <=? 20000000000 then inl z
      else if (-62135596800000 <=? z) && (z <=? 253402300799999) then inl (z / 1000)
      else inr field
  | _ => inr field
  end.

Definition error_of {A : Type} (r : A + string) : list string :=
  match r with
  | inl _ => []
  | inr field => [field]
  end.

(** [User(...)] with keyword arguments: every declared field is validated, keyword arguments
    that name no field are ignored, and the constructor raises
    [ValidationError] with all the fields that failed. *)
Definition User_init (kwargs : gmap string value) : result User :=
  match field_email kwargs, field_name kwargs, field_id kwargs,
        field_household_id kwargs, field_preferences kwargs,
        field_datetime "created_at" kwargs, field_datetime "updated_at" kwargs with
  | inl e, inl n, inl i, inl h, inl p, inl c, inl u => Ok (MkUser e n i h p c u)
  | fe, fn, fi, fh, fp, fc, fu =>
      Raise (ValidationError (error_of fe ++ error_of fn ++ error_of fi ++ error_of fh
                              ++ error_of fp ++ error_of fc ++ error_of fu))
  end.

End Validation.

End models_user.

(** ** fastapi: the credentials of the [Authorization: Bearer] header *)

Module fastapi.

Record HTTPAuthorizationCredentials : Type := MkCredentials {
  scheme : string;
  credentials : token
}.

End fastapi.
Export fastapi.

(** ** [app/core/auth.py]: the local credential authenticator *)

Module auth.

Section Auth.

Variable settings : Settings.
Variable validate_email : string -> bool.

(** [pwd_context = CryptContext(schemes=["bcrypt"], deprecated="auto")] *)
Definition pwd_context : passlib.CryptContext :=
  passlib.MkCryptContext ["bcrypt"].

(** [def verify_password(plain_password, hashed_password)] *)
Definition verify_password (plain_password : string)
    (hashed_password : passlib.stored_hash) : result bool :=
  passlib.verify pwd_context plain_password hashed_password.

(** [if expires_delta:] a [timedelta] is false when it is [None] or zero.
    Durations are in seconds. *)
Definition timedelta_truthy (expires_delta : option Z) : bool :=
  match expires_delta with
  | Some d => negb (d =? 0)
  | None => false
  end.

(** [def create_access_token(data, expires_delta=None)]; [data] is the
    caller's dictionary object. *)
Definition create_access_token (data : loc) (expires_delta : option Z) : M token :=
  to_encode <- dict_copy data ;;
  expire <- (match expires_delta with
             | Some delta =>
                 if timedelta_truthy expires_delta
                 then now <- utcnow ;; ret (now + delta)
                 else now <- utcnow ;; ret (now + 60 * access_token_expire_minutes settings)
             | None => now <- utcnow ;; ret (now + 60 * access_token_expire_minutes settings)
             end) ;;
  dict_update to_encode "exp" (VInt expire) ;;;
  claims <- dict_read to_encode ;;
  let encoded_jwt := jose.encode claims (secret_key settings) (algorithm settings) in
  ret encoded_jwt.

(** [def verify_token(token)]: [None] is the result for a [JWTError]. *)
Definition verify_token (token : token) : M (option (gmap string value)) :=
  try_except
    (payload <- jose.decode token (secret_key settings) [algorithm settings] ;;
     ret (Some payload))
    (fun e => if is_JWTError e then ret None else raise e).

Definition credentials_exception : exn :=
  HTTPException HTTP_401_UNAUTHORIZED "Could not validate credentials".

(** [async def get_current_user(credentials)] *)
Definition get_current_user (credentials : HTTPAuthorizationCredentials)
  : M models_user.User :=
  try_except
    (payload <- verify_token (fastapi.credentials credentials) ;;
     match payload with
     | None => raise credentials_exception
     | Some payload =>
         let user_id := dict_get payload "sub" in
         match user_id with
         | VNone => raise credentials_exception
         | _ =>
             user <- lift (models_user.User_init validate_email
                       (<["id" := user_id]>
                        (<["email" := dict_get_default payload "email" (VStr "")]>
                         (<["name" := dict_get_default payload "name" (VStr "")]>
                          (<["household_id" := dict_get payload "household_id"]> ∅))))) ;;
             ret user
         end
     end)
    (fun e => raise credentials_exception).

(** [async def get_current_active_user(current_user)] *)
Definition get_current_active_user (current_user : models_user.User)
  : M models_user.User :=
  ret current_user.

End Auth.

End auth.

(** ** [app/core/auth_b2c.py]: the federated token verifier *)

Module auth_b2c.

(** [class AzureADB2CAuth]: the attributes set once by [__init__].  The
    attribute [_jwks], which [__init__] sets to [None] and [get_jwks]
    assigns, is [b2c_jwks] of the world. *)
Record AzureADB2CAuth : Type := MkAzureADB2CAuth {
  tenant_name : string;
  client_id : string;
  policy_name : string;
  issuer : string;
  jwks_url : string
}.

(** [def __init__(self)] *)
Definition AzureADB2CAuth_init (settings : Settings) : AzureADB2CAuth :=
  let tenant := azure_b2c_tenant_name settings in
  let policy := azure_b2c_policy_name settings in
  {| tenant_name := tenant;
     client_id := azure_b2c_client_id settings;
     policy_name := policy;
     issuer := "https://" +:+ tenant +:+ ".b2clogin.com/" +:+ tenant
               +:+ ".onmicrosoft.com/" +:+ policy +:+ "/v2.0/";
     jwks_url := "https://" +:+ tenant +:+ ".b2clogin.com/" +:+ tenant
                 +:+ ".onmicrosoft.com/" +:+ policy +:+ "/discovery/v2.0/keys" |}.

Definition read_jwks : M (option JWKS) := fun w => (Ok (b2c_jwks w), w).
Definition write_jwks (c : option JWKS) : M unit := fun w => (Ok tt, set_b2c_jwks c w).

(** [async def get_jwks(self)]: the body of the coroutine. *)
Definition get_jwks (self : AzureADB2CAuth) : M (option JWKS) :=
  cached <- read_jwks ;;
  match cached with
  | None =>
      try_except
        (response <- requests.get (jwks_url self) ;;
         lift (requests.raise_for_status response) ;;;
         doc <- lift (requests.json response) ;;
         write_jwks doc)
        (fun e => raise (HTTPException HTTP_500_INTERNAL_SERVER_ERROR
                           "Authentication service unavailable"))
  | Some _ => ret tt
  end ;;;
  read_jwks.

(** The [for jwk in ...: if jwk.get('kid') == ...: key = ...; break] loop:
    the key of the first entry with the header's key identifier. *)
Fixpoint find_key (kid : option string) (keys : list jwk) : result (option string) :=
  match keys with
  | [] => Ok None
  | k :: rest =>
      if bool_decide (jwk_kid k = kid)
      then let? key := pyjwt.from_jwk k in Ok (Some key)
      else find_key kid rest
  end.

(** [def verify_token(self, token)], the [try] block.  [self.get_jwks()] is
    called without [await]: [jwks] is the coroutine object, and the key set
    is asked of it with [jwks.get('keys', [])]. *)
Definition verify_token_try (self : AzureADB2CAuth) (token : token)
  : M (gmap string value) :=
  unverified_header <- lift (pyjwt.get_unverified_header token) ;;
  let jwks := Coroutine (get_jwks self) in
  keys <- lift (coroutine_getattr jwks "get") ;;
  key <- lift (find_key (pyjwt.header_kid unverified_header) keys) ;;
  match key with
  | None => raise (HTTPException HTTP_401_UNAUTHORIZED "Invalid token")
  | Some key =>
      payload <- pyjwt.decode token key ["RS256"] (client_id self) (issuer self) ;;
      ret payload
  end.

(** The three [except] clauses of [verify_token], in order: what is raised
    for an exception [e] that left the [try] block. *)
Definition verify_token_except (e : exn) : exn :=
  if is_ExpiredSignatureError e
  then HTTPException HTTP_401_UNAUTHORIZED "Token has expired"
  else if is_InvalidTokenError e
  then HTTPException HTTP_401_UNAUTHORIZED "Invalid token"
  else HTTPException HTTP_401_UNAUTHORIZED "Token verification failed".

(** [def verify_token(self, token)] *)
Definition verify_token (self : AzureADB2CAuth) (token : token)
  : M (gmap string value) :=
  try_except (verify_token_try self token)
             (fun e => raise (verify_token_except e)).

Section Identity.

Variable validate_email : string -> bool.

(** [def get_user_from_token(self, payload)], the [try] block. *)
Definition get_user_from_token_try (payload : gmap string value)
  : result models_user.User :=
  let user_id := py_or (dict_get payload "sub") (dict_get payload "oid") in
  let? email :=
    (if truthy (dict_get payload "emails")
     then py_index0 (dict_get_default payload "emails" (VList [VNone]))
     else Ok (dict_get payload "email")) in
  let? name :=
    (if truthy (dict_get payload "name")
     then Ok (dict_get payload "name")
     else let? given := py_add (dict_get_default payload "given_name" (VStr "")) (VStr " ") in
          py_add given (dict_get_default payload "family_name" (VStr ""))) in
  if negb (truthy user_id)
  then Raise (HTTPException HTTP_401_UNAUTHORIZED "Invalid token: missing user ID")
  else
    let? stripped :=
      (match name with
       | VStr s => Ok (VStr (strip s))
       | _ => Raise (AttributeError "object has no attribute 'strip'")
       end) in
    models_user.User_init validate_email
      (<["id" := user_id]>
       (<["email" := py_or email (VStr (py_str user_id +:+ "@b2c.local"))]>
        (<["name" := py_or stripped (VStr "B2C User")]>
         (<["householdId" := VNone]>
          (<["preferences" := VDict [("notificationDays", VInt 3);
                                     ("theme", VStr "dark");
                                     ("units", VStr "imperial")]]> ∅))))).

(** [def get_user_from_token(self, payload)]: [except Exception] catches
    whatever left the [try] block, the [HTTPException] raised in it too. *)
Definition get_user_from_token (self : AzureADB2CAuth) (payload : gmap string value)
  : result models_user.User :=
  rcatch (get_user_from_token_try payload)
         (fun e => Raise (HTTPException HTTP_401_UNAUTHORIZED "Invalid token payload")).

Variable settings : Settings.

(** [b2c_auth = AzureADB2CAuth()] *)
Definition b2c_auth : AzureADB2CAuth := AzureADB2CAuth_init settings.

(** [async def get_current_user(credentials)] *)
Definition get_current_user (credentials : HTTPAuthorizationCredentials)
  : M models_user.User :=
  try_except
    (let token := fastapi.credentials credentials in
     payload <- verify_token b2c_auth token ;;
     user <- lift (get_user_from_token b2c_auth payload) ;;
     ret user)
    (fun e => if is_HTTPException e then raise e
              else raise (HTTPException HTTP_401_UNAUTHORIZED "Authentication failed")).

(** [async def get_optional_user(credentials)]; the call of
    [get_current_user] is awaited. *)
Definition get_optional_user (credentials : option HTTPAuthorizationCredentials)
  : M (option models_user.User) :=
  try_except
    (match credentials with
     | None => ret None
     | Some c => user <- await (Coroutine (get_current_user c)) ;; ret (Some user)
     end)
    (fun e => if is_HTTPException e then ret None else raise e).

End Identity.

End auth_b2c.

(** ** Vocabulary of the statements *)

Module Spec.

Definition is_ok {A : Type} (r : result A) : bool :=
  match r with Ok _ => true | Raise _ => false end.

(** The expiry [create_access_token] computes when the clock reads [now]. *)
Definition computed_expiry (settings : Settings) (now : Z) (expires_delta : option Z) : Z :=
  match expires_delta with
  | Some delta => if delta =? 0
                  then now + 60 * access_token_expire_minutes settings
                  else now + delta
  | None => now + 60 * access_token_expire_minutes settings
  end.

(** The decoder's verdict on the registered claims other than [exp] of a
    claim set, at verification time [now]. *)
Definition accepts_registered_claims (now : Z) (claims : gmap string value) : bool :=
  is_ok (jose.validate_iat claims) && is_ok (jose.validate_nbf now claims)
  && is_ok (jose.validate_other_claims claims).

(** A numeric date that [int] converts or refuses with [ValueError]: one
    that is absent, an integer, a boolean or a string.  The others are
    [null], a list and an object. *)
Definition convertible (v : option value) : bool :=
  match v with
  | None | Some (VInt _) | Some (VBool _) | Some (VStr _) => true
  | Some _ => false
  end.

Definition time_claims_convertible (claims : gmap string value) : bool :=
  convertible (claims !! "iat") && convertible (claims !! "nbf")
  && convertible (claims !! "exp").

(** A numeric date that is absent or an integer, and a claim set whose
    [iat] and [nbf] are. *)
Definition plain_date (v : option value) : bool :=
  match v with
  | None | Some (VInt _) => true
  | Some _ => false
  end.

Definition plain_time_claims (claims : gmap string value) : bool :=
  plain_date (claims !! "iat") && plain_date (claims !! "nbf").

(** A successful fetch, one that [get_jwks] turns into a cached key set: a
    status that [raise_for_status] lets through and a body that is a key-set
    document. *)
Definition fetch_ok (o : http_outcome) : bool :=
  match o with
  | Response status (JsonDoc _) => negb ((400 <=? status) && (status <? 600))
  | _ => false
  end.

(** The key set that a fetch yields, if any: the document of a response
    whose status is no error.  And the fetches on which [get_jwks] raises:
    no connection, an error status, a body that is not JSON; a body that is
    [null] yields no key set and raises nothing. *)
Definition fetched_key_set (o : http_outcome) : option JWKS :=
  match o with
  | Response status (JsonDoc doc) =>
      if (400 <=? status) && (status <? 600) then None else Some doc
  | _ => None
  end.

Definition fetch_raises (o : http_outcome) : bool :=
  match o with
  | ConnectionFailed => true
  | Response status body =>
      ((400 <=? status) && (status <? 600))
      || match body with NotJson => true | _ => false end
  end.

Definition successful_fetches (log : list (string * http_outcome)) : nat :=
  length (List.filter (fun entry => fetch_ok entry.2) log).

(** The world after [await b2c_auth.get_jwks()], whatever the call gave, and
    after [n] such calls in a row. *)
Definition after_get_jwks (self : auth_b2c.AzureADB2CAuth) (w : world) : world :=
  (await (Coroutine (auth_b2c.get_jwks self)) w).2.

Definition after_calls (self : auth_b2c.AzureADB2CAuth) (n : nat) (w : world) : world :=
  Nat.iter n (after_get_jwks self) w.

(** The world when the module has just been imported: [_jwks] is [None] and
    nothing has been requested. *)
Definition boot (now : Z) (objects : gmap loc (gmap string value))
    (net : nat -> http_outcome) : world :=
  MkWorld now objects None [] net.

End Spec.
Export Spec.

(** ** Concrete inputs used by the examples *)

Module Examples.

(** A process whose only dictionary object, at reference 0, is the caller's
    claim set, with the clock at 1000 and no network. *)
Definition issuing_world (c : gmap string value) : world :=
  boot 1000 {[ 0%nat := c ]} (fun _ => ConnectionFailed).

(** The claim set the login handler passes. *)
Definition login_claims : gmap string value :=
  {[ "sub" := VStr "u1"; "email" := VStr "u1@example.com"; "name" := VStr "Una" ]}.

(** A claim set that names an audience, and one that brings its own [exp]. *)
Definition audience_claims : gmap string value :=
  {[ "sub" := VStr "u1"; "aud" := VStr "pantry-app" ]}.
Definition stale_exp_claims : gmap string value :=
  {[ "sub" := VStr "u1"; "exp" := VInt 5 ]}.

(** A caller's claim set whose [nbf] is [None], and a token, signed with the
    configured key, whose [exp] is [null]. *)
Definition null_nbf_claims : gmap string value :=
  {[ "sub" := VStr "u1"; "nbf" := VNone ]}.
Definition null_exp_token : token :=
  jose.encode {[ "sub" := VStr "u1"; "exp" := VNone ]} "your-secret-key-here" "HS256".

(** The verifier of the default configuration and the key set of a provider
    that publishes the single key [k2]. *)
Definition b2c : auth_b2c.AzureADB2CAuth := auth_b2c.AzureADB2CAuth_init default_settings.
Definition key_set_k2 : JWKS := MkJWKS (Some [JWK (Some "k2") (Some "provider-key-2")]).

Definition warm_world : world :=
  MkWorld 1000 ∅ (Some key_set_k2) [] (fun _ => Response 200 (JsonDoc key_set_k2)).
Definition cold_world : world :=
  boot 1000 ∅ (fun _ => Response 200 (JsonDoc key_set_k2)).

(** Provider tokens: one whose header names the unpublished key [k1]; one
    signed by [k2] that expired at 10; one that names [k2] but was signed
    with another key. *)
Definition provider_claims (exp : Z) : gmap string value :=
  {[ "sub" := VStr "abc"; "exp" := VInt exp;
     "iss" := VStr (auth_b2c.issuer b2c); "aud" := VStr (auth_b2c.client_id b2c) ]}.
Definition token_k1 : token :=
  Compact (JWS "RS256" (Some "k1") (provider_claims 2000) "provider-key-1").
Definition token_expired : token :=
  Compact (JWS "RS256" (Some "k2") (provider_claims 10) "provider-key-2").
Definition token_forged : token :=
  Compact (JWS "RS256" (Some "k2") (provider_claims 2000) "attacker-key").

End Examples.
Export Examples.

(** ** The rest of [app/core/auth.py] and of [app/models/user.py] *)

Module auth_more.

(** [def get_password_hash(password)]: [pwd_context.hash(password)], with
    the salt that the context draws for the call made explicit. *)
Definition get_password_hash (salt : string) (password : string) : passlib.stored_hash :=
  passlib.BcryptHash salt password.

(** The request and response models of [models/user.py] that the handlers
    exchange; a request reaches its handler validated. *)
Record LoginRequest : Type := MkLoginRequest {
  lr_email : string;
  lr_password : string
}.

Record RegisterRequest : Type := MkRegisterRequest {
  rr_email : string;
  rr_name : string;
  rr_password : string
}.

(** The [data] of a [LoginResponse]: [{"token": ..., "user": {...}}]. *)
Record ResponseData : Type := MkResponseData {
  data_token : token;
  data_user : list (string * value)
}.

Record LoginResponse : Type := MkLoginResponse {
  success : bool;
  data : option ResponseData;
  error : option string;
  message : option string
}.

Record UserResponse : Type := MkUserResponse {
  ur_success : bool;
  ur_data : option models_user.User;
  ur_error : option string;
  ur_message : option string
}.

End auth_more.
Export auth_more.

(** ** The document store, as the handlers see it *)

Module store.

(** A user document: its entries, and apart from them the ["password"]
    entry as the hash it holds ([None] when the document has none). *)
Record user_doc : Type := MkUserDoc {
  doc_entries : gmap string value;
  doc_password : option passlib.stored_hash
}.

(** The container: the query of the users with a given address,
    [create_item] and [read_item]; each call may raise. *)
Record Container : Type := MkContainer {
  query_items : string -> result (list user_doc);
  create_item : user_doc -> result user_doc;
  read_item : string -> result user_doc
}.

(** [d[k]] *)
Definition getitem (d : gmap string value) (k : string) : result value :=
  match d !! k with
  | Some v => Ok v
  | None => Raise (KeyError k)
  end.

(** [user["password"]] *)
Definition getitem_password (user : user_doc) : result passlib.stored_hash :=
  match doc_password user with
  | Some h => Ok h
  | None => Raise (KeyError "password")
  end.

(** A dictionary display [{...}]: a new object. *)
Definition dict_new (d : gmap string value) : M loc :=
  fun w => let l := fresh (dom (heap w)) in
           (Ok l, set_heap (<[l := d]> (heap w)) w).

(** [Depends(dependency)]: the dependency is resolved first and the handler
    runs on what it returned. *)
Definition depends {A B : Type} (dependency : M A) (handler : A -> M B) : M B :=
  u <- dependency ;; handler u.

End store.
Export store.

(** ** [app/api/auth.py], [app/api/users.py] and [main.py]: the handlers that
    call the authenticators *)

Module api_auth.

Section Handlers.

Variable settings : Settings.
Variable validate_email : string -> bool.

(** [datetime.isoformat()] *)
Variable isoformat : Z -> string.

(** What [get_container()] gives: the container, or the error it raises
    when the database is not initialised. *)
Variable get_container : result Container.

(** [user_doc = {...}] of [register]: [user_id] is the fresh
    [str(uuid.uuid4())], [salt] the salt of the password hash. *)
Definition register_user_doc (user_id : string) (now : Z) (salt : string)
    (user_data : RegisterRequest) : user_doc :=
  MkUserDoc
    (<["id" := VStr user_id]>
     (<["email" := VStr (rr_email user_data)]>
      (<["name" := VStr (rr_name user_data)]>
       (<["preferences" := VDict [("notificationDays", VInt 3);
                                  ("theme", VStr "light");
                                  ("units", VStr "imperial")]]>
        (<["createdAt" := VStr (isoformat now)]>
         (<["updatedAt" := VStr (isoformat now)]> ∅))))))
    (Some (get_password_hash salt (rr_password user_data))).

(** [async def register(user_data)] *)
Definition register (user_id salt : string) (user_data : RegisterRequest)
  : M LoginResponse :=
  try_except
    (container <- lift get_container ;;
     existing_users <- lift (query_items container (rr_email user_data)) ;;
     match existing_users with
     | _ :: _ => raise (HTTPException 400 "Email already registered")
     | [] =>
         now <- utcnow ;;
         let user_doc := register_user_doc user_id now salt user_data in
         created_user <- lift (create_item container user_doc) ;;
         data <- dict_new (<["sub" := VStr user_id]>
                           (<["email" := VStr (rr_email user_data)]>
                            (<["name" := VStr (rr_name user_data)]> ∅))) ;;
         access_token <- auth.create_access_token settings data None ;;
         ret (MkLoginResponse true
                (Some (MkResponseData access_token
                         [("id", VStr user_id);
                          ("email", VStr (rr_email user_data));
                          ("name", VStr (rr_name user_data));
                          ("preferences", dict_get (doc_entries user_doc) "preferences")]))
                None (Some "User registered successfully"))
     end)
    (fun e => if is_HTTPException e then raise e
              else raise (HTTPException 500 "Failed to register user")).

(** [async def login(login_data)] *)
Definition login (login_data : LoginRequest) : M LoginResponse :=
  try_except
    (container <- lift get_container ;;
     users <- lift (query_items container (lr_email login_data)) ;;
     match users with
     | [] => raise (HTTPException 401 "Invalid email or password")
     | user :: _ =>
         stored <- lift (getitem_password user) ;;
         verified <- lift (auth.verify_password (lr_password login_data) stored) ;;
         if negb verified
         then raise (HTTPException 401 "Invalid email or password")
         else
           sub <- lift (getitem (doc_entries user) "id") ;;
           email <- lift (getitem (doc_entries user) "email") ;;
           name <- lift (getitem (doc_entries user) "name") ;;
           data <- dict_new (<["sub" := sub]> (<["email" := email]> (<["name" := name]> ∅))) ;;
           access_token <- auth.create_access_token settings data None ;;
           ret (MkLoginResponse true
                  (Some (MkResponseData access_token
                           [("id", sub); ("email", email); ("name", name);
                            ("preferences",
                             dict_get_default (doc_entries user) "preferences" (VDict []));
                            ("household_id", dict_get (doc_entries user) "householdId")]))
                  None (Some "Login successful"))
     end)
    (fun e => if is_HTTPException e then raise e
              else raise (HTTPException 500 "Failed to login")).

(** [async def refresh_token(current_user)], the body: the token of the
    answer [{"success": True, "data": {"token": ...}, ...}]. *)
Definition refresh_token (current_user : models_user.User) : M token :=
  try_except
    (data <- dict_new (<["sub" := VStr (models_user.id current_user)]>
                       (<["email" := VStr (models_user.email current_user)]>
                        (<["name" := VStr (models_user.name current_user)]> ∅))) ;;
     access_token <- auth.create_access_token settings data None ;;
     ret access_token)
    (fun e => raise (HTTPException 500 "Failed to refresh token")).

(** [async def get_current_user_info(current_user)] *)
Definition get_current_user_info (current_user : models_user.User) : M UserResponse :=
  try_except
    (ret (MkUserResponse true (Some current_user) None
            (Some "User information retrieved successfully")))
    (fun e => raise (HTTPException 500 "Failed to get user information")).

(** The two routes with their dependency [Depends(get_current_user)], the
    resolver of [app/core/auth.py]. *)
Definition refresh_token_route (credentials : HTTPAuthorizationCredentials) : M token :=
  depends (auth.get_current_user settings validate_email credentials) refresh_token.

Definition get_current_user_info_route (credentials : HTTPAuthorizationCredentials)
  : M UserResponse :=
  depends (auth.get_current_user settings validate_email credentials)
          get_current_user_info.

(** [async def get_user_profile(current_user)] of [app/api/users.py]:
    [user_doc.pop("password", None)] leaves the entries, which are the
    keyword arguments of [User]. *)
Definition get_user_profile (current_user : models_user.User) : M UserResponse :=
  try_except
    (container <- lift get_container ;;
     user_doc <- lift (read_item container (models_user.id current_user)) ;;
     user <- lift (models_user.User_init validate_email (doc_entries user_doc)) ;;
     ret (MkUserResponse true (Some user) None (Some "Profile retrieved successfully")))
    (fun e => raise (HTTPException 500 "Failed to get user profile")).

(** [async def protected_route(current_user = Depends(get_current_user))]
    of [main.py], whose resolver is the one of [app/core/auth_b2c.py]; the
    answer is [{"message": ..., "user": current_user.email}]. *)
Definition protected_route (credentials : HTTPAuthorizationCredentials)
  : M (string * string) :=
  depends (auth_b2c.get_current_user validate_email settings credentials)
          (fun current_user =>
             ret ("This is a protected route", models_user.email current_user)).

End Handlers.

End api_auth.

(** ** Concrete inputs for the handlers *)

Module HandlerExamples.

(** The document of a registered user whose password is ["correct horse"],
    and a container that knows this user only. *)
Definition una_request : RegisterRequest :=
  MkRegisterRequest "una@example.com" "Una" "correct horse".

Definition una_doc : user_doc :=
  api_auth.register_user_doc (fun _ => "1970-01-01T00:16:40") "u-1" 1000 "salt-1" una_request.

Definition una_container : Container :=
  MkContainer
    (fun address => if String.eqb address "una@example.com" then Ok [una_doc] else Ok [])
    (fun doc => Ok doc)
    (fun _ => Ok una_doc).

Definition una_login : LoginRequest := MkLoginRequest "una@example.com" "correct horse".


Definition empty_world : world := boot 1000 ∅ (fun _ => ConnectionFailed).

Definition other_settings : Settings :=
  {| secret_key := "another-secret";
     algorithm := "HS256";
     access_token_expire_minutes := 30;
     azure_b2c_tenant_name := "your-b2c-tenant-name";
     azure_b2c_client_id := "your-b2c-client-id";
     azure_b2c_policy_name := "B2C_1_signupsignin" |}.

(** Keyword arguments that build a [User], the [User] they build, and an
    address check that accepts everything. *)
Definition validate_email_all (address : string) : bool := true.

Definition una_kwargs : gmap string value :=
  {[ "email" := VStr "una@example.com"; "name" := VStr "Una"; "id" := VStr "u-1";
     "created_at" := VInt 1000; "updated_at" := VInt 1000 ]}.

Definition una_user : models_user.User :=
  models_user.MkUser "una@example.com" "Una" "u-1" None [] 1000 1000.

(** An endpoint that answers every GET with the JSON value [null]. *)
Definition null_world : world := boot 1000 ∅ (fun _ => Response 200 JsonNull).

End HandlerExamples.
Export HandlerExamples.

(** ** Properties *)

(** *** The monad *)

Lemma bind_ok {A B : Type} (m : M A) (k : A -> M B) (w w' : world) (a : A) :
  m w = (Ok a, w') -> bind m k w = k a w'.
Proof. intros H. unfold bind. now rewrite H. Qed.

Lemma bind_raise {A B : Type} (m : M A) (k : A -> M B) (w w' : world) (e : exn) :
  m w = (Raise e, w') -> bind m k w = (Raise e, w').
Proof. intros H. unfold bind. now rewrite H. Qed.

Lemma try_except_ok {A : Type} (m : M A) (h : exn -> M A) (w w' : world) (a : A) :
  m w = (Ok a, w') -> try_except m h w = (Ok a, w').
Proof. intros H. unfold try_except. now rewrite H. Qed.

Lemma try_except_raise {A : Type} (m : M A) (h : exn -> M A) (w w' : world) (e : exn) :
  m w = (Raise e, w') -> try_except m h w = h e w'.
Proof. intros H. unfold try_except. now rewrite H. Qed.

(** *** python-jose: what [decode] raises, and that it leaves the world
    alone *)

Lemma rbind_raise_inv {A B : Type} (r : result A) (k : A -> result B) (e : exn) :
  rbind r k = Raise e -> r = Raise e \/ exists a, r = Ok a /\ k a = Raise e.
Proof. destruct r as [a|e']; simpl; [right; eauto | intros [= ->]; now left]. Qed.

Ltac validator_raises :=
  intros Hraise; repeat case_match; simplify_eq; reflexivity.

(** The conversion of a numeric date fails with the validator's
    [JWTClaimsError] on a string that is no number, and with the
    [TypeError] of [int] on [null], a list or an object. *)
Lemma int_claim_raise (v : value) (message : string) (e : exn) :
  jose.int_claim v message = Raise e ->
  if convertible (Some v) then e = JWTClaimsError message else exists m, e = TypeError m.
Proof.
  unfold jose.int_claim, py_int.
  destruct v as [|b|z|s|l|d]; simpl; try discriminate;
    try (intros [= <-]; eexists; reflexivity).
  destruct (py_int_of_str s); simpl; [discriminate | now intros [= <-]].
Qed.

Lemma int_claim_convertible (v : value) (message : string) :
  convertible (Some v) = false -> exists m, jose.int_claim v message = Raise (TypeError m).
Proof. destruct v; simpl; try discriminate; intros _; eexists; reflexivity. Qed.

Lemma validate_iat_raise (claims : gmap string value) (e : exn) :
  jose.validate_iat claims = Raise e ->
  if convertible (claims !! "iat") then is_JWTError e = true else exists m, e = TypeError m.
Proof.
  unfold jose.validate_iat. destruct (claims !! "iat") as [v|]; [|discriminate].
  intros H. apply rbind_raise_inv in H as [H | (_ & _ & H)]; [|discriminate].
  apply int_claim_raise in H. destruct (convertible (Some v)); [now subst e | exact H].
Qed.

Lemma validate_nbf_raise (now : Z) (claims : gmap string value) (e : exn) :
  jose.validate_nbf now claims = Raise e ->
  if convertible (claims !! "nbf") then is_JWTError e = true else exists m, e = TypeError m.
Proof.
  unfold jose.validate_nbf. destruct (claims !! "nbf") as [v|]; [|discriminate].
  intros H. apply rbind_raise_inv in H as [H | (nbf & Hconv & H)].
  - apply int_claim_raise in H. destruct (convertible (Some v)); [now subst e | exact H].
  - destruct (convertible (Some v)) eqn:Hc.
    + destruct (now <? nbf); [now injection H as <- | discriminate].
    + destruct (int_claim_convertible v "Not Before claim (nbf) must be an integer." Hc)
        as [m Hm]. congruence.
Qed.

Lemma validate_exp_raise (now : Z) (claims : gmap string value) (e : exn) :
  jose.validate_exp now claims = Raise e ->
  if convertible (claims !! "exp") then is_JWTError e = true else exists m, e = TypeError m.
Proof.
  unfold jose.validate_exp. destruct (claims !! "exp") as [v|]; [|discriminate].
  intros H. apply rbind_raise_inv in H as [H | (exp & Hconv & H)].
  - apply int_claim_raise in H. destruct (convertible (Some v)); [now subst e | exact H].
  - destruct (convertible (Some v)) eqn:Hc.
    + destruct (exp <? now); [now injection H as <- | discriminate].
    + destruct (int_claim_convertible v "Expiration Time claim (exp) must be an integer." Hc)
        as [m Hm]. congruence.
Qed.

Lemma validate_other_claims_JWTError (claims : gmap string value) (e : exn) :
  jose.validate_other_claims claims = Raise e -> is_JWTError e = true.
Proof.
  unfold jose.validate_other_claims. intros H.
  repeat (apply rbind_raise_inv in H as [H | (_ & _ & H)]);
    revert H;
    [ unfold jose.validate_aud | unfold jose.validate_iss | unfold jose.validate_sub
    | unfold jose.validate_jti | unfold jose.validate_at_hash ];
    validator_raises.
Qed.

(** What leaves the validation of the claims is a [JWTError], or the
    [TypeError] of a numeric date that [int] cannot take. *)
Lemma validate_claims_raise (now : Z) (claims : gmap string value) (e : exn) :
  jose.validate_claims now claims = Raise e ->
  is_JWTError e = true
  \/ ((exists m, e = TypeError m) /\ time_claims_convertible claims = false).
Proof.
  unfold jose.validate_claims, time_claims_convertible. intros H.
  apply rbind_raise_inv in H as [H | (_ & _ & H)].
  { apply validate_iat_raise in H.
    destruct (convertible (claims !! "iat")); [now left | right; split; [exact H | reflexivity]]. }
  apply rbind_raise_inv in H as [H | (_ & _ & H)].
  { apply validate_nbf_raise in H.
    destruct (convertible (claims !! "nbf"));
      [now left | right; split; [exact H | now rewrite andb_false_r]]. }
  apply rbind_raise_inv in H as [H | (_ & _ & H)].
  { apply validate_exp_raise in H.
    destruct (convertible (claims !! "exp"));
      [now left | right; split; [exact H | now rewrite andb_false_r]]. }
  left. now apply validate_other_claims_JWTError in H.
Qed.

Lemma validate_claims_convertible (now : Z) (claims : gmap string value) (e : exn) :
  time_claims_convertible claims = true ->
  jose.validate_claims now claims = Raise e -> is_JWTError e = true.
Proof.
  intros Hc H. apply validate_claims_raise in H as [H | [_ H]]; [exact H | congruence].
Qed.

Lemma decode_world (tok : token) (key : string) (algs : list string) (w : world) :
  (jose.decode tok key algs w).2 = w.
Proof.
  unfold jose.decode. destruct tok as [raw|t]; [reflexivity|].
  destruct (negb _); [reflexivity|]. destruct (negb _); [reflexivity|].
  unfold bind, utcnow, lift, ret. now destruct (jose.validate_claims _ _).
Qed.

(** What [decode] raises is a [JWTError], unless the token is rightly
    signed with an allowed algorithm and one of its numeric dates is [null],
    a list or an object: then it may be the [TypeError] of [int]. *)
Lemma decode_raise (tok : token) (key : string) (algs : list string)
    (w w' : world) (e : exn) :
  jose.decode tok key algs w = (Raise e, w') ->
  is_JWTError e = true
  \/ exists m t, e = TypeError m /\ tok = Compact t
                 /\ jws_alg t ∈ algs /\ jws_signed_with t = key
                 /\ time_claims_convertible (jws_payload t) = false.
Proof.
  unfold jose.decode. destruct tok as [raw|t].
  { intros [= <- _]. now left. }
  destruct (decide (jws_alg t ∈ algs)) as [Halg|Halg];
    [ rewrite bool_decide_true by exact Halg
    | rewrite bool_decide_false by exact Halg; intros [= <- _]; now left ].
  simpl. destruct (String.eqb_spec (jws_signed_with t) key) as [Hkey|Hkey];
    [ | intros [= <- _]; now left ].
  simpl. unfold bind, utcnow, lift, ret.
  destruct (jose.validate_claims _ _) eqn:Hv; [discriminate|].
  intros [= <- _]. apply validate_claims_raise in Hv as [Hv | [[m ->] Hv]].
  - now left.
  - right. exists m, t. repeat split; assumption.
Qed.

(** [verify_token] is [decode] with every [JWTError] turned into [None];
    any other exception goes through. *)
Lemma verify_token_decode (settings : Settings) (tok : token) (w : world) :
  auth.verify_token settings tok w =
  (match (jose.decode tok (secret_key settings) [algorithm settings] w).1 with
   | Ok payload => Ok (Some payload)
   | Raise e => if is_JWTError e then Ok None else Raise e
   end, w).
Proof.
  unfold auth.verify_token, try_except, bind, ret, raise.
  pose proof (decode_world tok (secret_key settings) [algorithm settings] w) as Hw.
  destruct (jose.decode _ _ _ w) as [[p|e] w'] eqn:Hd; simpl in *; subst w'.
  - reflexivity.
  - now destruct (is_JWTError e).
Qed.

(** A token is checked against the key and the single algorithm it was
    issued with: what is left of [decode] is the validation of the claims. *)
Lemma decode_encode (claims : gmap string value) (key alg : string) (w : world) :
  (jose.decode (jose.encode claims key alg) key [alg] w).1 =
  match jose.validate_claims (clock w) claims with
  | Ok _ => Ok claims
  | Raise e => Raise e
  end.
Proof.
  unfold jose.decode, jose.encode. simpl.
  rewrite bool_decide_true by (apply list_elem_of_singleton; reflexivity).
  rewrite String.eqb_refl. simpl.
  unfold bind, utcnow, lift, ret.
  now destruct (jose.validate_claims _ _).
Qed.

(** The validators of the other registered claims do not look at [exp]. *)
Lemma validate_iat_insert_exp (claims : gmap string value) (v : value) :
  jose.validate_iat (<["exp" := v]> claims) = jose.validate_iat claims.
Proof. unfold jose.validate_iat. now rewrite lookup_insert_ne. Qed.

Lemma validate_nbf_insert_exp (now : Z) (claims : gmap string value) (v : value) :
  jose.validate_nbf now (<["exp" := v]> claims) = jose.validate_nbf now claims.
Proof. unfold jose.validate_nbf. now rewrite lookup_insert_ne. Qed.

Lemma validate_other_claims_insert_exp (claims : gmap string value) (v : value) :
  jose.validate_other_claims (<["exp" := v]> claims)
  = jose.validate_other_claims claims.
Proof.
  unfold jose.validate_other_claims, jose.validate_aud, jose.validate_iss,
    jose.validate_sub, jose.validate_jti, jose.validate_at_hash.
  now rewrite !lookup_insert_ne.
Qed.

Lemma validate_exp_int (now e : Z) (claims : gmap string value) :
  claims !! "exp" = Some (VInt e) ->
  jose.validate_exp now claims =
  if e <? now then Raise (JoseExpiredSignatureError "Signature has expired.") else Ok tt.
Proof. intros Hexp. unfold jose.validate_exp. now rewrite Hexp. Qed.

Lemma validate_exp_insert_exp (now : Z) (claims : gmap string value) (e : Z) :
  jose.validate_exp now (<["exp" := VInt e]> claims) =
  if e <? now then Raise (JoseExpiredSignatureError "Signature has expired.") else Ok tt.
Proof. apply validate_exp_int, lookup_insert_eq. Qed.

(** Validation of a claim set whose [exp] is [e]: it passes exactly when
    [e] is not in the past and the other registered claims are accepted. *)
Lemma validate_claims_insert_exp (now e : Z) (claims : gmap string value) :
  is_ok (jose.validate_claims now (<["exp" := VInt e]> claims))
  = (accepts_registered_claims now claims && negb (e <? now))%bool.
Proof.
  unfold jose.validate_claims, accepts_registered_claims.
  rewrite validate_iat_insert_exp, validate_nbf_insert_exp,
    validate_exp_insert_exp, validate_other_claims_insert_exp.
  destruct (jose.validate_iat claims) as [[]|]; simpl; [|reflexivity].
  destruct (jose.validate_nbf now claims) as [[]|]; simpl; [|reflexivity].
  destruct (e <? now); simpl.
  - now rewrite andb_false_r.
  - now rewrite andb_true_r.
Qed.

(** An expired claim set never validates, whatever else it holds. *)
Lemma validate_claims_expired (now e : Z) (claims : gmap string value) :
  claims !! "exp" = Some (VInt e) -> e < now ->
  is_ok (jose.validate_claims now claims) = false.
Proof.
  intros Hexp Hlt. unfold jose.validate_claims.
  destruct (jose.validate_iat claims) as [[]|]; simpl; [|reflexivity].
  destruct (jose.validate_nbf now claims) as [[]|]; simpl; [|reflexivity].
  rewrite (validate_exp_int now e claims Hexp).
  destruct (Z.ltb_spec e now); [reflexivity | lia].
Qed.

Lemma plain_date_convertible (v : option value) :
  plain_date v = true -> convertible v = true.
Proof. destruct v as [[]|]; simpl; congruence. Qed.

Lemma time_claims_convertible_insert_exp (e : Z) (claims : gmap string value) :
  convertible (claims !! "iat") = true -> convertible (claims !! "nbf") = true ->
  time_claims_convertible (<["exp" := VInt e]> claims) = true.
Proof.
  intros Hiat Hnbf. unfold time_claims_convertible.
  rewrite !lookup_insert_ne by discriminate. rewrite lookup_insert_eq, Hiat, Hnbf.
  reflexivity.
Qed.

(** Verification of a freshly encoded claim set. *)
Lemma verify_token_encode_claims (settings : Settings) (claims : gmap string value)
    (w : world) :
  auth.verify_token settings
    (jose.encode claims (secret_key settings) (algorithm settings)) w
  = (match jose.validate_claims (clock w) claims with
     | Ok _ => Ok (Some claims)
     | Raise e => if is_JWTError e then Ok None else Raise e
     end, w).
Proof.
  rewrite verify_token_decode, decode_encode.
  now destruct (jose.validate_claims _ _).
Qed.

(** Verification of a freshly encoded claim set with expiry [e], when the
    caller's [iat] and [nbf] are values that [int] takes. *)
Lemma verify_token_encode (settings : Settings) (c : gmap string value) (e : Z)
    (w : world) :
  convertible (c !! "iat") = true -> convertible (c !! "nbf") = true ->
  auth.verify_token settings
    (jose.encode (<["exp" := VInt e]> c) (secret_key settings) (algorithm settings)) w
  = (Ok (if (accepts_registered_claims (clock w) c && negb (e <? clock w))%bool
         then Some (<["exp" := VInt e]> c) else None), w).
Proof.
  intros Hiat Hnbf. rewrite verify_token_encode_claims.
  rewrite <- validate_claims_insert_exp.
  destruct (jose.validate_claims _ _) as [[]|x] eqn:Hv; [reflexivity|].
  now rewrite (validate_claims_convertible _ _ _
                 (time_claims_convertible_insert_exp e c Hiat Hnbf) Hv).
Qed.

(** An expired token is never accepted. *)
Lemma verify_token_encode_expired (settings : Settings) (c : gmap string value) (e : Z)
    (w : world) (p : gmap string value) :
  e < clock w ->
  (auth.verify_token settings
     (jose.encode (<["exp" := VInt e]> c) (secret_key settings) (algorithm settings)) w).1
  <> Ok (Some p).
Proof.
  intros Hlt. rewrite verify_token_encode_claims. simpl.
  pose proof (validate_claims_expired (clock w) e (<["exp" := VInt e]> c)
                (lookup_insert_eq _ _ _) Hlt) as Hv.
  destruct (jose.validate_claims _ _) as [[]|x]; [discriminate|].
  destruct (is_JWTError x); discriminate.
Qed.

(** *** [create_access_token], step by step *)

Lemma create_access_token_run (settings : Settings) (w : world) (data : loc)
    (c : gmap string value) (expires_delta : option Z) :
  heap w !! data = Some c ->
  let to_encode := fresh (dom (heap w)) in
  let claims := <["exp" := VInt (computed_expiry settings (clock w) expires_delta)]> c in
  auth.create_access_token settings data expires_delta w =
  (Ok (jose.encode claims (secret_key settings) (algorithm settings)),
   set_heap (<[to_encode := claims]> (<[to_encode := c]> (heap w))) w).
Proof.
  intros Hdata to_encode claims.
  unfold auth.create_access_token.
  erewrite bind_ok; cycle 1.
  { unfold dict_copy. rewrite Hdata. reflexivity. }
  fold to_encode.
  set (w1 := set_heap (<[to_encode := c]> (heap w)) w).
  assert (Hexp : (match expires_delta with
                  | Some delta =>
                      if auth.timedelta_truthy expires_delta
                      then now <- utcnow ;; ret (now + delta)
                      else now <- utcnow ;; ret (now + 60 * access_token_expire_minutes settings)
                  | None => now <- utcnow ;; ret (now + 60 * access_token_expire_minutes settings)
                  end) w1
                 = (Ok (computed_expiry settings (clock w) expires_delta), w1)).
  { unfold computed_expiry, auth.timedelta_truthy.
    destruct expires_delta as [delta|]; [destruct (delta =? 0)|]; reflexivity. }
  erewrite bind_ok by exact Hexp.
  erewrite bind_ok; cycle 1.
  { unfold dict_update. simpl. rewrite lookup_insert_eq. reflexivity. }
  erewrite bind_ok; cycle 1.
  { unfold dict_read. simpl. rewrite lookup_insert_eq. reflexivity. }
  unfold ret, set_heap. simpl. fold claims. reflexivity.
Qed.

(** *** The [User] model *)

(** No call that leaves out [created_at] can build a [User]: the field is
    declared without a default. *)
Lemma User_init_requires_created_at (validate_email : string -> bool)
    (kwargs : gmap string value) :
  kwargs !! "created_at" = None ->
  exists fields, models_user.User_init validate_email kwargs = Raise (ValidationError fields)
                 /\ "created_at" ∈ fields.
Proof.
  intros Hmissing. unfold models_user.User_init.
  assert (Hc : models_user.field_datetime "created_at" kwargs = inr "created_at").
  { unfold models_user.field_datetime. now rewrite Hmissing. }
  rewrite Hc.
  destruct (models_user.field_email _ _), (models_user.field_name _),
    (models_user.field_id _), (models_user.field_household_id _),
    (models_user.field_preferences _), (models_user.field_datetime "updated_at" _);
    eexists; (split; [reflexivity | simpl; set_solver]).
Qed.

(** *** Issuing and verifying local tokens *)

(** C10: [create_access_token] works on a copy.  The caller's dictionary,
    like every other dictionary object alive at the call, holds afterwards
    what it held before; the issued token carries the caller's claims with
    ["exp"] set to the computed expiry (the clock plus the given non-zero
    delta, else the clock plus the configured lifetime), whatever ["exp"]
    the caller had supplied. *)
Theorem create_access_token_frame (settings : Settings) (w : world) (data : loc)
    (c : gmap string value) (expires_delta : option Z) :
  heap w !! data = Some c ->
  exists payload w',
    auth.create_access_token settings data expires_delta w
    = (Ok (Compact (JWS (algorithm settings) None payload (secret_key settings))), w')
    /\ heap w' !! data = Some c
    /\ (forall l d, heap w !! l = Some d -> heap w' !! l = Some d)
    /\ payload !! "exp" = Some (VInt (computed_expiry settings (clock w) expires_delta))
    /\ (forall k, k <> "exp" -> payload !! k = c !! k).
Proof.
  intros Hdata.
  pose proof (create_access_token_run settings w data c expires_delta Hdata) as Hrun.
  cbv zeta in Hrun. do 2 eexists. split; [exact Hrun|].
  assert (Hfresh : forall l d, heap w !! l = Some d -> l <> fresh (dom (heap w))).
  { intros l d Hl ->. apply (is_fresh (dom (heap w))).
    apply elem_of_dom. eauto. }
  assert (Hkeep : forall l d, heap w !! l = Some d ->
            heap (set_heap
                    (<[fresh (dom (heap w)) :=
                         <["exp" := VInt (computed_expiry settings (clock w) expires_delta)]> c]>
                       (<[fresh (dom (heap w)) := c]> (heap w))) w) !! l = Some d).
  { intros l d Hl. simpl. rewrite !lookup_insert_ne by (symmetry; eauto). exact Hl. }
  repeat split.
  - eauto.
  - exact Hkeep.
  - apply lookup_insert_eq.
  - intros k Hk. now rewrite lookup_insert_ne.
Qed.

(** The frame property at a caller's dictionary that already has an ["exp"]. *)
Lemma create_access_token_frame_witness :
  exists payload w',
    auth.create_access_token default_settings 0%nat (Some 60) (issuing_world stale_exp_claims)
    = (Ok (Compact (JWS "HS256" None payload "your-secret-key-here")), w')
    /\ heap w' !! 0%nat = Some stale_exp_claims
    /\ (forall l d, heap (issuing_world stale_exp_claims) !! l = Some d -> heap w' !! l = Some d)
    /\ payload !! "exp" = Some (VInt 1060)
    /\ (forall k, k <> "exp" -> payload !! k = stale_exp_claims !! k).
Proof.
  apply (create_access_token_frame default_settings (issuing_world stale_exp_claims)
           0%nat stale_exp_claims (Some 60)).
  reflexivity.
Defined.

(** C7, as amended: [verify_token] leaves the world alone, returns the
    claim set of the token when [jwt.decode] succeeds and [None] when
    [jwt.decode] fails with a [JWTError]: for a string that is not a token,
    for a token signed with another key or with another algorithm, and for
    an expired token.  It does not raise as long as each of [iat], [nbf] and
    [exp] is absent, an integer, a boolean or a string.  What it does raise
    is the [TypeError] of [int], and only for a token that is rightly signed
    and holds [null], a list or an object under one of these three claims. *)
Theorem verify_token_result (settings : Settings) (tok : token) (w : world) :
  (auth.verify_token settings tok w).2 = w
  /\ (forall payload,
        (jose.decode tok (secret_key settings) [algorithm settings] w).1 = Ok payload ->
        auth.verify_token settings tok w = (Ok (Some payload), w)
        /\ exists t, tok = Compact t /\ payload = jws_payload t)
  /\ (forall e,
        (jose.decode tok (secret_key settings) [algorithm settings] w).1 = Raise e ->
        is_JWTError e = true ->
        auth.verify_token settings tok w = (Ok None, w))
  /\ (forall raw, tok = Garbage raw -> auth.verify_token settings tok w = (Ok None, w))
  /\ (forall t, tok = Compact t -> jws_signed_with t <> secret_key settings ->
                auth.verify_token settings tok w = (Ok None, w))
  /\ (forall t, tok = Compact t -> jws_alg t <> algorithm settings ->
                auth.verify_token settings tok w = (Ok None, w))
  /\ (forall t exp, tok = Compact t -> jws_payload t !! "exp" = Some (VInt exp) ->
                    exp < clock w ->
                    convertible (jws_payload t !! "iat") = true ->
                    convertible (jws_payload t !! "nbf") = true ->
                    auth.verify_token settings tok w = (Ok None, w))
  /\ (forall t, tok = Compact t -> time_claims_convertible (jws_payload t) = true ->
                auth.verify_token settings tok w = (Ok (Some (jws_payload t)), w)
                \/ auth.verify_token settings tok w = (Ok None, w))
  /\ (forall e, (auth.verify_token settings tok w).1 = Raise e ->
                exists m t, e = TypeError m /\ tok = Compact t
                            /\ jws_alg t = algorithm settings
                            /\ jws_signed_with t = secret_key settings
                            /\ time_claims_convertible (jws_payload t) = false).
Proof.
  assert (Hraise : forall e,
            (auth.verify_token settings tok w).1 = Raise e ->
            exists m t, e = TypeError m /\ tok = Compact t
                        /\ jws_alg t = algorithm settings
                        /\ jws_signed_with t = secret_key settings
                        /\ time_claims_convertible (jws_payload t) = false).
  { intros e. rewrite verify_token_decode. simpl.
    destruct (jose.decode tok (secret_key settings) [algorithm settings] w)
      as [[p|x] w'] eqn:Hd; simpl; [discriminate|].
    destruct (is_JWTError x) eqn:Hx; [discriminate|]. intros [= ->].
    apply decode_raise in Hd as [Hd | (m & t & -> & -> & Halg & Hkey & Hconv)];
      [congruence|].
    apply list_elem_of_singleton in Halg. exists m, t. repeat split; assumption. }
  assert (Hconv : forall t, tok = Compact t ->
            time_claims_convertible (jws_payload t) = true ->
            auth.verify_token settings tok w = (Ok (Some (jws_payload t)), w)
            \/ auth.verify_token settings tok w = (Ok None, w)).
  { intros t -> Hc. rewrite verify_token_decode. unfold jose.decode.
    destruct (negb (bool_decide _)); [now right|].
    destruct (negb (String.eqb _ _)); [now right|].
    unfold bind, utcnow, lift, ret.
    destruct (jose.validate_claims _ _) as [[]|x] eqn:Hx; simpl; [now left|].
    rewrite (validate_claims_convertible _ _ _ Hc Hx). now right. }
  split; [now rewrite verify_token_decode|].
  split; [| split; [| split; [| split; [| split; [| split; [| split]]]]]].
  - intros payload Hd. rewrite verify_token_decode, Hd. split; [reflexivity|].
    revert Hd. unfold jose.decode. destruct tok as [raw|t]; [discriminate|].
    destruct (negb (bool_decide _)); [discriminate|].
    destruct (negb (String.eqb _ _)); [discriminate|].
    unfold bind, utcnow, lift, ret.
    destruct (jose.validate_claims _ _); simpl; [|discriminate].
    intros [= <-]. eauto.
  - intros e Hd He. now rewrite verify_token_decode, Hd, He.
  - intros raw ->. reflexivity.
  - intros t -> Hkey. rewrite verify_token_decode. unfold jose.decode.
    destruct (negb (bool_decide _)); [reflexivity|].
    destruct (String.eqb_spec (jws_signed_with t) (secret_key settings)) as [Heq|_];
      [contradiction | reflexivity].
  - intros t -> Halg. rewrite verify_token_decode. unfold jose.decode.
    rewrite bool_decide_false; [reflexivity|].
    intros Hin. apply list_elem_of_singleton in Hin. contradiction.
  - intros t exp -> Hexp Hlt Hiat Hnbf.
    assert (Hc : time_claims_convertible (jws_payload t) = true).
    { unfold time_claims_convertible. now rewrite Hiat, Hnbf, Hexp. }
    destruct (Hconv t eq_refl Hc) as [Hv|Hv]; [|exact Hv].
    exfalso. rewrite verify_token_decode in Hv. injection Hv as Hv.
    unfold jose.decode in Hv.
    destruct (negb (bool_decide _)); [discriminate|].
    destruct (negb (String.eqb _ _)); [discriminate|].
    unfold bind, utcnow, lift, ret in Hv.
    pose proof (validate_claims_expired (clock w) exp (jws_payload t) Hexp Hlt) as Hx.
    destruct (jose.validate_claims _ _) as [[]|x]; [discriminate|].
    simpl in Hv. destruct (is_JWTError x); discriminate.
  - exact Hconv.
  - exact Hraise.
Qed.

(** C7, as stated, fails: [verify_token] raises.  A token signed with the
    configured key whose [exp] is [null] makes it raise [TypeError]; so does
    the token that [create_access_token] itself issues for a claim set whose
    [nbf] is [None]. *)
Lemma verify_token_raises_on_null_date :
  (exists m, (auth.verify_token default_settings null_exp_token empty_world).1
             = Raise (TypeError m))
  /\ (exists tok w1 m,
        auth.create_access_token default_settings 0%nat None (issuing_world null_nbf_claims)
        = (Ok tok, w1)
        /\ (auth.verify_token default_settings tok w1).1 = Raise (TypeError m)).
Proof.
  split.
  - eexists. vm_compute. reflexivity.
  - do 3 eexists. split; vm_compute; reflexivity.
Qed.

(** C2, as amended: a token issued for the claim set [c] with a positive
    ttl [t] is never accepted once the clock has passed [issued_at + t], and
    what a verification up to then returns, if it returns claims, is [c]
    with ["exp"] set to [issued_at + t].  When [iat] and [nbf] of [c] are
    absent or integers the token verifies, at any clock reading up to
    [issued_at + t], exactly when the decoder accepts the other registered
    claims of [c], and the result past [issued_at + t] is [None]. *)
Theorem verify_token_create_access_token (settings : Settings) (w : world) (data : loc)
    (c : gmap string value) (t now : Z) :
  heap w !! data = Some c -> 0 < t ->
  exists tok w1,
    auth.create_access_token settings data (Some t) w = (Ok tok, w1)
    /\ (plain_time_claims c = true -> now <= clock w + t ->
        auth.verify_token settings tok (set_clock now w1)
        = (Ok (if accepts_registered_claims now c
               then Some (<["exp" := VInt (clock w + t)]> c) else None),
           set_clock now w1))
    /\ (plain_time_claims c = true -> clock w + t < now ->
        auth.verify_token settings tok (set_clock now w1) = (Ok None, set_clock now w1))
    /\ (clock w + t < now ->
        forall p, (auth.verify_token settings tok (set_clock now w1)).1 <> Ok (Some p))
    /\ (forall p, (auth.verify_token settings tok (set_clock now w1)).1 = Ok (Some p) ->
                  p = <["exp" := VInt (clock w + t)]> c).
Proof.
  intros Hdata Ht.
  pose proof (create_access_token_run settings w data c (Some t) Hdata) as Hrun.
  cbv zeta in Hrun.
  assert (Hexp : computed_expiry settings (clock w) (Some t) = clock w + t).
  { unfold computed_expiry. destruct (Z.eqb_spec t 0); [lia | reflexivity]. }
  rewrite Hexp in Hrun. do 2 eexists. split; [exact Hrun|].
  assert (Hplain : plain_time_claims c = true ->
            convertible (c !! "iat") = true /\ convertible (c !! "nbf") = true).
  { unfold plain_time_claims. intros [Hiat Hnbf]%andb_prop.
    split; now apply plain_date_convertible. }
  split; [| split; [| split]].
  - intros [Hiat Hnbf]%Hplain Hnow. rewrite verify_token_encode by assumption.
    simpl clock. destruct (Z.ltb_spec (clock w + t) now); [lia|].
    now rewrite andb_true_r.
  - intros [Hiat Hnbf]%Hplain Hnow. rewrite verify_token_encode by assumption.
    simpl clock. destruct (Z.ltb_spec (clock w + t) now); [|lia].
    now rewrite andb_false_r.
  - intros Hnow p. apply verify_token_encode_expired. simpl. exact Hnow.
  - intros p. rewrite verify_token_encode_claims. simpl.
    destruct (jose.validate_claims _ _) as [[]|x]; [now intros [= <-]|].
    destruct (is_JWTError x); discriminate.
Qed.

(** The login claims, issued at 1000 for 60 seconds and verified at 1030. *)
Lemma verify_token_create_access_token_witness :
  exists tok w1,
    auth.create_access_token default_settings 0%nat (Some 60) (issuing_world login_claims)
    = (Ok tok, w1)
    /\ (plain_time_claims login_claims = true -> 1030 <= clock (issuing_world login_claims) + 60 ->
        auth.verify_token default_settings tok (set_clock 1030 w1)
        = (Ok (if accepts_registered_claims 1030 login_claims
               then Some (<["exp" := VInt (clock (issuing_world login_claims) + 60)]> login_claims)
               else None),
           set_clock 1030 w1))
    /\ (plain_time_claims login_claims = true -> clock (issuing_world login_claims) + 60 < 1030 ->
        auth.verify_token default_settings tok (set_clock 1030 w1)
        = (Ok None, set_clock 1030 w1))
    /\ (clock (issuing_world login_claims) + 60 < 1030 ->
        forall p, (auth.verify_token default_settings tok (set_clock 1030 w1)).1
                  <> Ok (Some p))
    /\ (forall p, (auth.verify_token default_settings tok (set_clock 1030 w1)).1
                  = Ok (Some p) ->
                  p = <["exp" := VInt (clock (issuing_world login_claims) + 60)]> login_claims).
Proof.
  apply (verify_token_create_access_token default_settings (issuing_world login_claims)
           0%nat login_claims 60 1030); [reflexivity | lia].
Defined.

(** C2, as stated, fails in two ways.  A claim set that names an audience is
    issued without complaint and refused by [verify_token] at once, long
    before its expiry; and a claim set that brings its own ["exp"] does not
    get that claim back. *)
Lemma verify_token_roundtrip_counterexample :
  (exists tok w1,
     auth.create_access_token default_settings 0%nat (Some 60) (issuing_world audience_claims)
     = (Ok tok, w1)
     /\ clock w1 = 1000
     /\ (auth.verify_token default_settings tok w1).1 = Ok None)
  /\ (exists tok w1 payload,
        auth.create_access_token default_settings 0%nat (Some 60)
          (issuing_world stale_exp_claims) = (Ok tok, w1)
        /\ (auth.verify_token default_settings tok w1).1 = Ok (Some payload)
        /\ stale_exp_claims !! "exp" = Some (VInt 5)
        /\ payload !! "exp" = Some (VInt 1060)).
Proof.
  split.
  - do 2 eexists. split; [vm_compute; reflexivity|]. split; vm_compute; reflexivity.
  - do 3 eexists. split; [vm_compute; reflexivity|].
    split; [vm_compute; reflexivity|]. split; vm_compute; reflexivity.
Qed.

(** *** Resolving the identity of a local token *)

(** Whatever the token, [get_current_user] of [auth.py] raises the 401 it
    prepared: the [User] it builds from the claims lacks the required
    [created_at] and [updated_at], and [except Exception] turns the
    validation error into [credentials_exception]. *)
Lemma get_current_user_always_401 (settings : Settings) (validate_email : string -> bool)
    (creds : HTTPAuthorizationCredentials) (w : world) :
  auth.get_current_user settings validate_email creds w
  = (Raise (HTTPException 401 "Could not validate credentials"), w).
Proof.
  unfold auth.get_current_user, try_except, bind.
  rewrite verify_token_decode.
  destruct ((jose.decode _ _ _ w).1) as [payload|e];
    [|destruct (is_JWTError e); reflexivity].
  destruct (dict_get payload "sub") eqn:Hsub; try reflexivity;
    unfold lift;
    match goal with
    | |- context [models_user.User_init ?ve ?kw] =>
        destruct (User_init_requires_created_at ve kw) as (fields & -> & _);
        [ now rewrite !lookup_insert_ne | reflexivity ]
    end.
Qed.

(** C1, at a token for which the claim promises an identity: the login
    claims, issued with the default lifetime and presented at once, verify
    and carry [sub = "u1"], and [get_current_user] still answers 401, even
    with an address check that accepts everything. *)
Theorem get_current_user_rejects_valid_token :
  exists tok w1 payload,
    auth.create_access_token default_settings 0%nat None (issuing_world login_claims)
    = (Ok tok, w1)
    /\ (auth.verify_token default_settings tok w1).1 = Ok (Some payload)
    /\ payload !! "sub" = Some (VStr "u1")
    /\ (auth.get_current_user default_settings (fun _ => true)
          (MkCredentials "Bearer" tok) w1).1
       = Raise (HTTPException 401 "Could not validate credentials").
Proof.
  do 3 eexists. split; [vm_compute; reflexivity|].
  split; [vm_compute; reflexivity|].
  split; [vm_compute; reflexivity|].
  now rewrite get_current_user_always_401.
Qed.

(** *** Password verification *)

(** bcrypt reads the whole of a secret of at most 72 bytes. *)
Lemma substring_all (n : nat) (s : string) :
  (String.length s <= n)%nat -> String.substring 0 n s = s.
Proof.
  revert n. induction s as [|a s IH]; intros [|n] Hlen; simpl in *;
    try reflexivity; try lia.
  f_equal. apply IH. lia.
Qed.

Lemma bcrypt_input_short (s : string) :
  (String.length s <= 72)%nat -> passlib.bcrypt_input s = s.
Proof. apply substring_all. Qed.

(** C8, as amended: [verify_password] returns what the password context
    returns and handles nothing itself.  For a plaintext that the context
    takes and a well-formed hash that is a boolean: [true] when the first
    72 bytes of the plaintext are those of the hashed secret, [false] when
    they differ, so for secrets of at most 72 bytes [false] on every
    mismatch.  A stored value that is no well-formed hash makes the context
    raise, [UnknownHashError] when it cannot be identified and [ValueError]
    when it is a malformed bcrypt hash, and [verify_password] lets the
    exception through. *)
Theorem verify_password_result (plain : string) :
  passlib.accepted_secret plain = true ->
  (forall salt secret,
     passlib.bcrypt_input plain = passlib.bcrypt_input secret ->
     auth.verify_password plain (passlib.BcryptHash salt secret) = Ok true)
  /\ (forall salt secret,
        passlib.bcrypt_input plain <> passlib.bcrypt_input secret ->
        auth.verify_password plain (passlib.BcryptHash salt secret) = Ok false)
  /\ (forall salt secret,
        (String.length plain <= 72)%nat -> (String.length secret <= 72)%nat ->
        plain <> secret ->
        auth.verify_password plain (passlib.BcryptHash salt secret) = Ok false)
  /\ (forall raw, auth.verify_password plain (passlib.Unidentified raw)
                  = Raise (UnknownHashError "hash could not be identified"))
  /\ (forall raw, exists msg,
        auth.verify_password plain (passlib.MalformedBcrypt raw) = Raise (ValueError msg))
  /\ (forall h, auth.verify_password plain h = passlib.verify auth.pwd_context plain h).
Proof.
  intros _.
  assert (Hdiff : forall salt secret,
            passlib.bcrypt_input plain <> passlib.bcrypt_input secret ->
            auth.verify_password plain (passlib.BcryptHash salt secret) = Ok false).
  { intros salt secret Hne. unfold auth.verify_password, passlib.verify. simpl.
    destruct (String.eqb_spec (passlib.bcrypt_input plain) (passlib.bcrypt_input secret));
      [contradiction | reflexivity]. }
  split; [| split; [| split; [| split; [| split]]]].
  - intros salt secret Heq. unfold auth.verify_password, passlib.verify. simpl.
    rewrite Heq. now rewrite String.eqb_refl.
  - exact Hdiff.
  - intros salt secret Hplain Hsecret Hne. apply Hdiff.
    now rewrite !bcrypt_input_short by assumption.
  - reflexivity.
  - intros raw. eexists. reflexivity.
  - reflexivity.
Qed.

(** The password ["hunter2"] against hashes and against strings that are
    no hash. *)
Lemma verify_password_result_witness :
  (forall salt secret,
     passlib.bcrypt_input "hunter2" = passlib.bcrypt_input secret ->
     auth.verify_password "hunter2" (passlib.BcryptHash salt secret) = Ok true)
  /\ (forall salt secret,
        passlib.bcrypt_input "hunter2" <> passlib.bcrypt_input secret ->
        auth.verify_password "hunter2" (passlib.BcryptHash salt secret) = Ok false)
  /\ (forall salt secret,
        (String.length "hunter2" <= 72)%nat -> (String.length secret <= 72)%nat ->
        "hunter2" <> secret ->
        auth.verify_password "hunter2" (passlib.BcryptHash salt secret) = Ok false)
  /\ (forall raw, auth.verify_password "hunter2" (passlib.Unidentified raw)
                  = Raise (UnknownHashError "hash could not be identified"))
  /\ (forall raw, exists msg,
        auth.verify_password "hunter2" (passlib.MalformedBcrypt raw)
        = Raise (ValueError msg))
  /\ (forall h, auth.verify_password "hunter2" h
                = passlib.verify auth.pwd_context "hunter2" h).
Proof.
  apply (verify_password_result "hunter2"). reflexivity.
Defined.

(** C8, as stated, fails on a stored value that is not a hash: the call
    raises instead of returning [false]. *)
Lemma verify_password_raises_on_malformed_hash :
  auth.verify_password "hunter2" (passlib.Unidentified "hunter2")
  = Raise (UnknownHashError "hash could not be identified").
Proof. reflexivity. Qed.

(** *** The federated verifier *)

(** [verify_token] of [auth_b2c.py] never gets to the key set: a string
    that is not a token fails in [get_unverified_header], and for any other
    token the un-awaited coroutine has no [get].  The world is untouched. *)
Lemma b2c_verify_token_run (self : auth_b2c.AzureADB2CAuth) (tok : token) (w : world) :
  auth_b2c.verify_token self tok w
  = (Raise (HTTPException 401 (match tok with
                               | Garbage _ => "Invalid token"
                               | Compact _ => "Token verification failed"
                               end)), w).
Proof. destruct tok; reflexivity. Qed.

(** C4: whatever check a federated token fails, the signature, the
    audience, the issuer or the expiry, what reaches the caller is a 401
    whose detail is one of two fixed strings; the detail is the same for
    every token that has the shape of a token, so it tells neither which
    check failed nor anything of the claims, and the world is left as it
    was. *)
Theorem verify_token_failure_is_generic (self : auth_b2c.AzureADB2CAuth) :
  (forall tok w, exists detail,
      auth_b2c.verify_token self tok w = (Raise (HTTPException 401 detail), w)
      /\ (detail = "Invalid token" \/ detail = "Token verification failed"))
  /\ (forall t w,
        auth_b2c.verify_token self (Compact t) w
        = (Raise (HTTPException 401 "Token verification failed"), w))
  /\ (forall t1 t2 w,
        auth_b2c.verify_token self (Compact t1) w
        = auth_b2c.verify_token self (Compact t2) w)
  /\ (forall t key w e w',
        pyjwt.decode (Compact t) key ["RS256"] (auth_b2c.client_id self)
          (auth_b2c.issuer self) w = (Raise e, w') ->
        auth_b2c.verify_token self (Compact t) w
        = (Raise (HTTPException 401 "Token verification failed"), w)).
Proof.
  split; [| split; [| split]].
  - intros tok w. rewrite b2c_verify_token_run. eexists. split; [reflexivity|].
    destruct tok; [now left | now right].
  - intros t w. apply b2c_verify_token_run.
  - intros t1 t2 w. now rewrite !b2c_verify_token_run.
  - intros t key w e w' _. apply b2c_verify_token_run.
Qed.

(** C3, as amended: a token whose key identifier is absent from an already
    cached key set is refused with a 401 and the world is left as it was: no
    request is sent, the cache is not refreshed and the lookup is not tried
    a second time.  Whatever the token and the cache, one verification sends
    at most one request. *)
Theorem verify_token_unknown_kid (self : auth_b2c.AzureADB2CAuth) (t : jws)
    (w : world) (doc : JWKS) :
  b2c_jwks w = Some doc ->
  (forall k, k ∈ default [] (jwks_keys doc) -> jwk_kid k <> jws_kid t) ->
  (exists detail,
     auth_b2c.verify_token self (Compact t) w = (Raise (HTTPException 401 detail), w))
  /\ (forall tok0 w0,
        (length (http_log (auth_b2c.verify_token self tok0 w0).2)
         <= S (length (http_log w0)))%nat).
Proof.
  intros _ _. split.
  - eexists. apply b2c_verify_token_run.
  - intros tok0 w0. rewrite b2c_verify_token_run. simpl. lia.
Qed.

(** The token of key [k1] against the cached key set that holds only [k2]. *)
Lemma verify_token_unknown_kid_witness :
  (exists detail,
     auth_b2c.verify_token b2c token_k1 warm_world
     = (Raise (HTTPException 401 detail), warm_world))
  /\ (forall tok0 w0,
        (length (http_log (auth_b2c.verify_token b2c tok0 w0).2)
         <= S (length (http_log w0)))%nat).
Proof.
  apply (verify_token_unknown_kid b2c
           (JWS "RS256" (Some "k1") (provider_claims 2000) "provider-key-1")
           warm_world key_set_k2).
  - reflexivity.
  - intros k Hk. apply list_elem_of_singleton in Hk. subst k. discriminate.
Defined.

(** C3, as stated, fails: with the key set of [k2] in the cache, verifying
    the token of key [k1] sends no request at all (the claim has exactly
    one) and leaves the cache as it was; the detail of the 401 is the one
    of the catch-all clause. *)
Lemma verify_token_unknown_kid_sends_no_request :
  b2c_jwks warm_world = Some key_set_k2
  /\ http_log warm_world = []
  /\ (auth_b2c.verify_token b2c token_k1 warm_world).1
     = Raise (HTTPException 401 "Token verification failed")
  /\ http_log (auth_b2c.verify_token b2c token_k1 warm_world).2 = []
  /\ b2c_jwks (auth_b2c.verify_token b2c token_k1 warm_world).2 = Some key_set_k2.
Proof. repeat split. Qed.

(** The coroutine of [get_jwks] is never awaited by [verify_token]: with an
    empty cache too the verification sends no request and leaves the cache
    empty, whatever the endpoint would have served. *)
Lemma verify_token_cold_cache_sends_no_request :
  b2c_jwks cold_world = None
  /\ (auth_b2c.verify_token b2c token_k1 cold_world).1
     = Raise (HTTPException 401 "Token verification failed")
  /\ http_log (auth_b2c.verify_token b2c token_k1 cold_world).2 = []
  /\ b2c_jwks (auth_b2c.verify_token b2c token_k1 cold_world).2 = None.
Proof. repeat split. Qed.

(** Whatever the payload, [get_user_from_token] raises 401: the [User] it
    builds lacks the required [created_at] and [updated_at], and the missing
    subject, a claim of the wrong type and the validation error all end in
    the [except Exception] clause. *)
Lemma get_user_from_token_always_401 (validate_email : string -> bool)
    (self : auth_b2c.AzureADB2CAuth) (payload : gmap string value) :
  auth_b2c.get_user_from_token validate_email self payload
  = Raise (HTTPException 401 "Invalid token payload").
Proof.
  unfold auth_b2c.get_user_from_token, auth_b2c.get_user_from_token_try.
  destruct (if truthy (dict_get payload "emails") then _ else _) as [email|];
    simpl; [|reflexivity].
  destruct (if truthy (dict_get payload "name") then _ else _) as [name|];
    simpl; [|reflexivity].
  destruct (negb _); simpl; [reflexivity|].
  destruct (match name with VStr s => _ | _ => _ end) as [stripped|];
    simpl; [|reflexivity].
  match goal with
  | |- context [models_user.User_init ?ve ?kw] =>
      destruct (User_init_requires_created_at ve kw) as (fields & -> & _);
      [ now rewrite !lookup_insert_ne | reflexivity ]
  end.
Qed.

(** C5, at the payload of the scenario: claims that hold [oid = "abc"] and
    no address.  The placeholder address is computed, and the call fails
    all the same, with a validator that accepts every address: the
    constructor misses [created_at] and [updated_at]. *)
Theorem get_user_from_token_rejects_oid_only :
  auth_b2c.get_user_from_token_try (fun _ => true) {[ "oid" := VStr "abc" ]}
  = Raise (ValidationError ["created_at"; "updated_at"])
  /\ auth_b2c.get_user_from_token (fun _ => true) b2c {[ "oid" := VStr "abc" ]}
     = Raise (HTTPException 401 "Invalid token payload").
Proof. split; vm_compute; reflexivity. Qed.

(** *** The optional resolver *)

Lemma b2c_get_current_user_run (validate_email : string -> bool) (settings : Settings)
    (c : HTTPAuthorizationCredentials) (w : world) :
  exists detail,
    auth_b2c.get_current_user validate_email settings c w
    = (Raise (HTTPException 401 detail), w).
Proof.
  unfold auth_b2c.get_current_user, try_except, bind.
  rewrite b2c_verify_token_run. simpl. eauto.
Qed.

(** C9: [get_optional_user] never raises; it returns [None] when no
    credentials are given and [None] whenever the verification of the token
    fails, a string that is not a token included. *)
Theorem get_optional_user_never_raises (validate_email : string -> bool)
    (settings : Settings) :
  (forall creds w, exists r w',
      auth_b2c.get_optional_user validate_email settings creds w = (Ok r, w'))
  /\ (forall w, auth_b2c.get_optional_user validate_email settings None w = (Ok None, w))
  /\ (forall c w e w',
        auth_b2c.verify_token (auth_b2c.b2c_auth settings) (fastapi.credentials c) w
        = (Raise e, w') ->
        auth_b2c.get_optional_user validate_email settings (Some c) w = (Ok None, w'))
  /\ (forall scheme raw w,
        auth_b2c.get_optional_user validate_email settings
          (Some (MkCredentials scheme (Garbage raw))) w = (Ok None, w)).
Proof.
  assert (Hsome : forall c w,
            auth_b2c.get_optional_user validate_email settings (Some c) w = (Ok None, w)).
  { intros c w. unfold auth_b2c.get_optional_user, try_except, bind, await.
    destruct (b2c_get_current_user_run validate_email settings c w) as [detail ->].
    reflexivity. }
  split; [| split; [| split]].
  - intros [c|] w; [rewrite Hsome | ]; do 2 eexists; reflexivity.
  - reflexivity.
  - intros c w e w' Hfail. rewrite b2c_verify_token_run in Hfail.
    injection Hfail as _ <-. apply Hsome.
  - intros scheme raw w. apply Hsome.
Qed.

(** *** The key-set cache *)

Lemma get_jwks_warm (self : auth_b2c.AzureADB2CAuth) (w : world) (doc : JWKS) :
  b2c_jwks w = Some doc -> auth_b2c.get_jwks self w = (Ok (Some doc), w).
Proof.
  intros Hwarm. unfold auth_b2c.get_jwks, bind, auth_b2c.read_jwks, ret.
  rewrite Hwarm. simpl. now rewrite Hwarm.
Qed.

(** With an empty cache one request is sent.  Its outcome decides between
    a filled cache, a 500 that leaves the cache empty and, for a body that
    is [null], a [None] that is returned and leaves the cache empty too. *)
Lemma get_jwks_cold (self : auth_b2c.AzureADB2CAuth) (w : world) :
  b2c_jwks w = None ->
  let outcome := endpoint w (length (http_log w)) in
  let w1 := set_http_log (http_log w ++ [(auth_b2c.jwks_url self, outcome)]) w in
  auth_b2c.get_jwks self w =
  match outcome with
  | ConnectionFailed =>
      (Raise (HTTPException 500 "Authentication service unavailable"), w1)
  | Response status body =>
      if (400 <=? status) && (status <? 600)
      then (Raise (HTTPException 500 "Authentication service unavailable"), w1)
      else match body with
           | NotJson => (Raise (HTTPException 500 "Authentication service unavailable"), w1)
           | JsonNull => (Ok None, set_b2c_jwks None w1)
           | JsonDoc doc => (Ok (Some doc), set_b2c_jwks (Some doc) w1)
           end
  end.
Proof.
  intros Hcold outcome w1.
  unfold auth_b2c.get_jwks, bind, auth_b2c.read_jwks, try_except, requests.get.
  rewrite Hcold. fold outcome. fold w1.
  destruct outcome as [|status body]; simpl; [reflexivity|].
  unfold lift, requests.raise_for_status. simpl.
  destruct ((400 <=? status) && (status <? 600)); [reflexivity|].
  destruct body; reflexivity.
Qed.

Lemma successful_fetches_snoc (log : list (string * http_outcome)) (url : string)
    (o : http_outcome) :
  successful_fetches (log ++ [(url, o)])
  = (successful_fetches log + (if fetch_ok o then 1 else 0))%nat.
Proof.
  unfold successful_fetches. rewrite List.filter_app, length_app. simpl.
  now destruct (fetch_ok o).
Qed.

Lemma after_calls_warm (self : auth_b2c.AzureADB2CAuth) (n : nat) (w : world) (doc : JWKS) :
  b2c_jwks w = Some doc -> after_calls self n w = w.
Proof.
  intros Hwarm. induction n as [|n IH]; [reflexivity|].
  unfold after_calls in *. simpl. rewrite IH.
  unfold after_get_jwks, await. now rewrite (get_jwks_warm self w doc Hwarm).
Qed.

(** One awaited call on an empty cache: one request to the discovery URL,
    and the cache holds what the fetch yielded. *)
Lemma after_get_jwks_cold (self : auth_b2c.AzureADB2CAuth) (w : world) :
  b2c_jwks w = None ->
  http_log (after_get_jwks self w)
  = http_log w ++ [(auth_b2c.jwks_url self, endpoint w (length (http_log w)))]
  /\ b2c_jwks (after_get_jwks self w) = fetched_key_set (endpoint w (length (http_log w))).
Proof.
  intros Hcold. unfold after_get_jwks, await. rewrite (get_jwks_cold self w Hcold).
  destruct (endpoint w (length (http_log w))) as [|status body];
    [ | destruct ((400 <=? status) && (status <? 600)) eqn:Hstatus; destruct body ];
    simpl; rewrite ?Hstatus, ?Hcold; split; reflexivity.
Qed.

Lemma fetch_ok_fetched_key_set (o : http_outcome) :
  fetch_ok o = match fetched_key_set o with Some _ => true | None => false end.
Proof.
  destruct o as [|status [| |doc]]; simpl; try reflexivity.
  now destruct ((400 <=? status) && (status <? 600)).
Qed.

(** From the start of the process: while the cache is empty every call has
    sent its request and none was successful; once it is filled there has
    been exactly one successful fetch. *)
Lemma after_calls_boot (self : auth_b2c.AzureADB2CAuth) (now : Z)
    (objects : gmap loc (gmap string value)) (net : nat -> http_outcome) (n : nat) :
  match b2c_jwks (after_calls self n (boot now objects net)) with
  | None =>
      length (http_log (after_calls self n (boot now objects net))) = n
      /\ successful_fetches (http_log (after_calls self n (boot now objects net))) = 0%nat
  | Some _ =>
      successful_fetches (http_log (after_calls self n (boot now objects net))) = 1%nat
      /\ (length (http_log (after_calls self n (boot now objects net))) <= n)%nat
  end.
Proof.
  induction n as [|n IH]; [split; reflexivity|].
  unfold after_calls in *. simpl.
  set (w := Nat.iter n (after_get_jwks self) (boot now objects net)) in *.
  destruct (b2c_jwks w) as [doc|] eqn:Hcache.
  - assert (Hsame : after_get_jwks self w = w).
    { unfold after_get_jwks, await. now rewrite (get_jwks_warm self w doc Hcache). }
    rewrite Hsame, Hcache. destruct IH as [Hone Hlen]. split; [exact Hone | lia].
  - destruct (after_get_jwks_cold self w Hcache) as [Hlog Hnew]. destruct IH as [Hlen Hzero].
    rewrite Hnew, Hlog, successful_fetches_snoc, fetch_ok_fetched_key_set, length_app.
    simpl. destruct (fetched_key_set _); split; lia.
Qed.

(** C6: counted from the start of the process, any number of awaited
    [get_jwks] calls against any endpoint makes at most one successful
    fetch, that is, one request that yields a key set: while the cache is
    empty every call has sent a request and none was successful, and once
    it is filled exactly one was.  A filled cache is returned as it is,
    without a request and without a change, however many calls follow.  On
    an empty cache a call sends exactly one request, to the discovery URL,
    and afterwards the cache holds the key set the fetch yielded: a fetch
    that yields none (no connection, an error status, a body that is not
    JSON or is [null]) leaves the cache empty, and the next call sends a
    request again.  A call that raises raises the 500. *)
Theorem get_jwks_fetches_at_most_once (self : auth_b2c.AzureADB2CAuth) :
  (forall now objects net n,
      (successful_fetches (http_log (after_calls self n (boot now objects net))) <= 1)%nat)
  /\ (forall now objects net n,
        match b2c_jwks (after_calls self n (boot now objects net)) with
        | None =>
            length (http_log (after_calls self n (boot now objects net))) = n
            /\ successful_fetches (http_log (after_calls self n (boot now objects net)))
               = 0%nat
        | Some _ =>
            successful_fetches (http_log (after_calls self n (boot now objects net)))
            = 1%nat
        end)
  /\ (forall w doc, b2c_jwks w = Some doc ->
        await (Coroutine (auth_b2c.get_jwks self)) w = (Ok (Some doc), w))
  /\ (forall w doc n, b2c_jwks w = Some doc -> after_calls self n w = w)
  /\ (forall w, b2c_jwks w = None ->
        await (Coroutine (auth_b2c.get_jwks self)) w
        = (if fetch_raises (endpoint w (length (http_log w)))
           then Raise (HTTPException 500 "Authentication service unavailable")
           else Ok (fetched_key_set (endpoint w (length (http_log w)))),
           set_b2c_jwks (fetched_key_set (endpoint w (length (http_log w))))
             (set_http_log
                (http_log w
                 ++ [(auth_b2c.jwks_url self, endpoint w (length (http_log w)))]) w)))
  /\ (forall w, b2c_jwks w = None ->
        fetch_ok (endpoint w (length (http_log w))) = false ->
        b2c_jwks (after_get_jwks self w) = None
        /\ length (http_log (after_get_jwks self w)) = S (length (http_log w))
        /\ length (http_log (after_get_jwks self (after_get_jwks self w)))
           = S (S (length (http_log w))))
  /\ (forall w, b2c_jwks w = None ->
        fetch_ok (endpoint w (length (http_log w))) = true ->
        exists status doc,
          endpoint w (length (http_log w)) = Response status (JsonDoc doc)
          /\ b2c_jwks (after_get_jwks self w) = Some doc
          /\ after_get_jwks self (after_get_jwks self w) = after_get_jwks self w)
  /\ (forall w e w', await (Coroutine (auth_b2c.get_jwks self)) w = (Raise e, w') ->
        e = HTTPException 500 "Authentication service unavailable"
        /\ b2c_jwks w = None /\ b2c_jwks w' = None
        /\ fetch_ok (endpoint w (length (http_log w))) = false
        /\ length (http_log w') = S (length (http_log w))).
Proof.
  split; [| split; [| split; [| split; [| split; [| split; [| split]]]]]].
  - intros now objects net n.
    pose proof (after_calls_boot self now objects net n) as Hinv.
    destruct (b2c_jwks (after_calls self n (boot now objects net))); lia.
  - intros now objects net n.
    pose proof (after_calls_boot self now objects net n) as Hinv.
    destruct (b2c_jwks (after_calls self n (boot now objects net))); tauto.
  - intros w doc Hwarm. now apply get_jwks_warm.
  - intros w doc n Hwarm. now apply (after_calls_warm self n w doc).
  - intros w Hcache. unfold await. rewrite (get_jwks_cold self w Hcache).
    destruct (endpoint w (length (http_log w))) as [|status body]; simpl.
    + unfold set_b2c_jwks, set_http_log. simpl. now rewrite Hcache.
    + destruct ((400 <=? status) && (status <? 600)); simpl.
      * unfold set_b2c_jwks, set_http_log. simpl. rewrite Hcache. now destruct body.
      * destruct body; try reflexivity.
        unfold set_b2c_jwks, set_http_log. simpl. now rewrite Hcache.
  - intros w Hcache Hfail.
    destruct (after_get_jwks_cold self w Hcache) as [Hlog Hnew].
    rewrite fetch_ok_fetched_key_set in Hfail.
    destruct (fetched_key_set _); [discriminate|].
    destruct (after_get_jwks_cold self (after_get_jwks self w) Hnew) as [Hlog2 _].
    split; [exact Hnew|]. rewrite Hlog2, Hlog, !length_app. simpl. lia.
  - intros w Hcache Hok.
    destruct (after_get_jwks_cold self w Hcache) as [_ Hnew].
    destruct (endpoint w (length (http_log w))) as [|status [| |doc]] eqn:Hout;
      try discriminate.
    simpl in Hok, Hnew. destruct ((400 <=? status) && (status <? 600)); [discriminate|].
    exists status, doc. split; [reflexivity|]. split; [exact Hnew|].
    unfold after_get_jwks at 1. unfold await.
    now rewrite (get_jwks_warm self _ doc Hnew).
  - intros w e w'. unfold await.
    destruct (b2c_jwks w) as [doc|] eqn:Hcache.
    { rewrite (get_jwks_warm self w doc Hcache). discriminate. }
    rewrite (get_jwks_cold self w Hcache).
    destruct (endpoint w (length (http_log w))) as [|status body];
      [ | destruct ((400 <=? status) && (status <? 600)) eqn:Hstatus; [ | destruct body ] ];
      intros [= <- <-]; simpl;
      rewrite ?Hcache, ?length_app, ?Hstatus; simpl;
      repeat split; try lia; now destruct body.
Qed.

(** ** Further properties of the authentication layer *)

(** *** Hashing and tokens *)

(** X2: a token issued under one configuration is refused under another
    whose secret key or algorithm differs, whatever its claims and whenever
    it is presented. *)
Theorem verify_token_other_configuration (issuer verifier : Settings) (w : world)
    (data : loc) (c : gmap string value) (expires_delta : option Z) (now : Z) :
  heap w !! data = Some c ->
  secret_key issuer <> secret_key verifier \/ algorithm issuer <> algorithm verifier ->
  exists tok w1,
    auth.create_access_token issuer data expires_delta w = (Ok tok, w1)
    /\ auth.verify_token verifier tok (set_clock now w1) = (Ok None, set_clock now w1).
Proof.
  intros Hdata Hdiff.
  pose proof (create_access_token_run issuer w data c expires_delta Hdata) as Hrun.
  cbv zeta in Hrun. do 2 eexists. split; [exact Hrun|].
  rewrite verify_token_decode. f_equal.
  unfold jose.decode, jose.encode. simpl.
  destruct (decide (algorithm issuer = algorithm verifier)) as [Halg|Halg].
  - rewrite bool_decide_true by (apply list_elem_of_singleton; exact Halg). simpl.
    destruct (String.eqb_spec (secret_key issuer) (secret_key verifier)) as [Hkey|Hkey];
      [ destruct Hdiff; contradiction | reflexivity ].
  - rewrite bool_decide_false; [reflexivity|].
    intros Hin. apply list_elem_of_singleton in Hin. contradiction.
Qed.

Lemma verify_token_other_configuration_witness :
  exists tok w1,
    auth.create_access_token default_settings 0%nat None (issuing_world login_claims)
    = (Ok tok, w1)
    /\ auth.verify_token other_settings tok (set_clock 1001 w1)
       = (Ok None, set_clock 1001 w1).
Proof.
  apply (verify_token_other_configuration default_settings other_settings
           (issuing_world login_claims) 0%nat login_claims None 1001).
  - reflexivity.
  - left. discriminate.
Defined.

(** X3: a negative lifetime is taken as given: the token is issued with an
    expiry in the past and is never accepted, from the moment of its
    issuance on; the verification gives [None] when [iat] and [nbf] of the
    claim set are absent or integers. *)
Theorem create_access_token_negative_delta (settings : Settings) (w : world)
    (data : loc) (c : gmap string value) (delta now : Z) :
  heap w !! data = Some c -> delta < 0 -> clock w <= now ->
  exists tok w1,
    auth.create_access_token settings data (Some delta) w = (Ok tok, w1)
    /\ (forall p, (auth.verify_token settings tok (set_clock now w1)).1 <> Ok (Some p))
    /\ (plain_time_claims c = true ->
        auth.verify_token settings tok (set_clock now w1) = (Ok None, set_clock now w1)).
Proof.
  intros Hdata Hneg Hnow.
  pose proof (create_access_token_run settings w data c (Some delta) Hdata) as Hrun.
  cbv zeta in Hrun.
  assert (Hexp : computed_expiry settings (clock w) (Some delta) = clock w + delta).
  { unfold computed_expiry. destruct (Z.eqb_spec delta 0); [lia | reflexivity]. }
  rewrite Hexp in Hrun. do 2 eexists. split; [exact Hrun|]. split.
  - intros p. apply verify_token_encode_expired. simpl. lia.
  - unfold plain_time_claims. intros [Hiat Hnbf]%andb_prop.
    rewrite verify_token_encode by now apply plain_date_convertible.
    simpl clock. destruct (Z.ltb_spec (clock w + delta) now); [|lia].
    now rewrite andb_false_r.
Qed.

Lemma create_access_token_negative_delta_witness :
  exists tok w1,
    auth.create_access_token default_settings 0%nat (Some (-60))
      (issuing_world login_claims) = (Ok tok, w1)
    /\ (forall p, (auth.verify_token default_settings tok (set_clock 1000 w1)).1
                  <> Ok (Some p))
    /\ (plain_time_claims login_claims = true ->
        auth.verify_token default_settings tok (set_clock 1000 w1)
        = (Ok None, set_clock 1000 w1)).
Proof.
  apply (create_access_token_negative_delta default_settings
           (issuing_world login_claims) 0%nat login_claims (-60) 1000);
    [reflexivity | lia | simpl; lia].
Defined.

(** X4: a lifetime of zero is not an immediate expiry: it is treated like
    no lifetime at all, and the token gets the configured default. *)
Theorem create_access_token_zero_delta (settings : Settings) (w : world)
    (data : loc) (c : gmap string value) :
  heap w !! data = Some c ->
  auth.create_access_token settings data (Some 0) w
  = auth.create_access_token settings data None w
  /\ exists w1,
       auth.create_access_token settings data (Some 0) w
       = (Ok (jose.encode
                (<["exp" := VInt (clock w + 60 * access_token_expire_minutes settings)]> c)
                (secret_key settings) (algorithm settings)), w1).
Proof.
  intros Hdata.
  rewrite (create_access_token_run settings w data c (Some 0) Hdata).
  rewrite (create_access_token_run settings w data c None Hdata).
  split; [reflexivity | eexists; reflexivity].
Qed.

Lemma create_access_token_zero_delta_witness :
  auth.create_access_token default_settings 0%nat (Some 0) (issuing_world login_claims)
  = auth.create_access_token default_settings 0%nat None (issuing_world login_claims)
  /\ exists w1,
       auth.create_access_token default_settings 0%nat (Some 0) (issuing_world login_claims)
       = (Ok (jose.encode
                (<["exp" := VInt (clock (issuing_world login_claims)
                                  + 60 * access_token_expire_minutes default_settings)]>
                   login_claims)
                (secret_key default_settings) (algorithm default_settings)), w1).
Proof.
  apply (create_access_token_zero_delta default_settings (issuing_world login_claims)
           0%nat login_claims).
  reflexivity.
Defined.

(** *** The [User] model *)

(** X6: a keyword that names no field is ignored: the outcome of the
    constructor is the one without it.  The camel-case [householdId],
    [createdAt] and [updatedAt] are such keywords. *)
Theorem User_init_ignores_unknown_keyword (validate_email : string -> bool)
    (kwargs : gmap string value) (k : string) (v : value) :
  k ∉ ["email"; "name"; "id"; "household_id"; "preferences"; "created_at"; "updated_at"] ->
  models_user.User_init validate_email (<[k := v]> kwargs)
  = models_user.User_init validate_email kwargs.
Proof.
  intros Hk.
  assert (Hne : forall f, f ∈ ["email"; "name"; "id"; "household_id"; "preferences";
                               "created_at"; "updated_at"] ->
                          (<[k := v]> kwargs) !! f = kwargs !! f).
  { intros f Hf. apply lookup_insert_ne. intros ->. contradiction. }
  unfold models_user.User_init, models_user.field_email, models_user.field_name,
    models_user.field_id, models_user.field_household_id,
    models_user.field_preferences, models_user.field_datetime.
  rewrite !Hne by set_solver. reflexivity.
Qed.

Lemma User_init_ignores_unknown_keyword_witness :
  models_user.User_init validate_email_all (<["householdId" := VNone]> una_kwargs)
  = models_user.User_init validate_email_all una_kwargs.
Proof.
  apply (User_init_ignores_unknown_keyword validate_email_all una_kwargs
           "householdId" VNone).
  intros Hin. repeat (apply elem_of_cons in Hin as [Hin|Hin]; [discriminate Hin|]).
  inversion Hin.
Defined.

(** *** The key lookup of the federated verifier *)

(** X7: the lookup loop ends without a key exactly when no entry of the
    key set has the key identifier of the header; a header without [kid]
    is matched by an entry without [kid]. *)
Theorem find_key_none (kid : option string) (keys : list jwk) :
  auth_b2c.find_key kid keys = Ok None <-> Forall (fun k => jwk_kid k <> kid) keys.
Proof.
  induction keys as [|k rest IH]; simpl.
  - split; [constructor | reflexivity].
  - destruct (decide (jwk_kid k = kid)) as [Heq|Hne].
    + rewrite bool_decide_true by exact Heq. split.
      * unfold pyjwt.from_jwk. destruct (jwk_material k); simpl; discriminate.
      * intros Hall. inversion Hall; subst. contradiction.
    + rewrite bool_decide_false by exact Hne. rewrite IH. split.
      * intros Hall. now constructor.
      * intros Hall. now inversion Hall.
Qed.

(** X8: the loop stops at the first entry with the key identifier of the
    header.  Its key is the result; when that entry is not a usable key the
    loop raises, and no later entry with the same identifier is tried. *)
Theorem find_key_first_match (kid : option string) (before after : list jwk) (k : jwk) :
  Forall (fun k' => jwk_kid k' <> kid) before ->
  jwk_kid k = kid ->
  auth_b2c.find_key kid (before ++ k :: after) =
  match jwk_material k with
  | Some material => Ok (Some material)
  | None => Raise (InvalidKeyError "Not a public or private key")
  end.
Proof.
  intros Hbefore Hk. induction Hbefore as [|k' before' Hne _ IH]; simpl.
  - rewrite bool_decide_true by exact Hk. unfold pyjwt.from_jwk.
    now destruct (jwk_material k).
  - rewrite bool_decide_false by exact Hne. exact IH.
Qed.

Lemma find_key_first_match_witness :
  auth_b2c.find_key (Some "k2")
    ([JWK (Some "k1") (Some "provider-key-1")]
     ++ JWK (Some "k2") None :: [JWK (Some "k2") (Some "provider-key-2")]) =
  match jwk_material (JWK (Some "k2") None) with
  | Some material => Ok (Some material)
  | None => Raise (InvalidKeyError "Not a public or private key")
  end.
Proof.
  apply (find_key_first_match (Some "k2") [JWK (Some "k1") (Some "provider-key-1")]
           [JWK (Some "k2") (Some "provider-key-2")] (JWK (Some "k2") None)).
  - constructor; [discriminate | constructor].
  - reflexivity.
Defined.

(** *** More on [get_jwks] *)

(** X9: with an empty cache, an awaited [get_jwks] of the verifier built
    from the settings sends exactly one GET, and sends it to the discovery
    URL of the configured tenant and policy. *)
Theorem get_jwks_requests_discovery_url (settings : Settings) (w : world) :
  b2c_jwks w = None ->
  http_log (after_get_jwks (auth_b2c.b2c_auth settings) w)
  = http_log w
    ++ [("https://" +:+ azure_b2c_tenant_name settings +:+ ".b2clogin.com/"
         +:+ azure_b2c_tenant_name settings +:+ ".onmicrosoft.com/"
         +:+ azure_b2c_policy_name settings +:+ "/discovery/v2.0/keys",
         endpoint w (length (http_log w)))].
Proof.
  intros Hcold. unfold after_get_jwks, await.
  rewrite (get_jwks_cold (auth_b2c.b2c_auth settings) w Hcold).
  destruct (endpoint w (length (http_log w))) as [|status body];
    [ | destruct ((400 <=? status) && (status <? 600)); [ | destruct body ] ];
    reflexivity.
Qed.

Lemma get_jwks_requests_discovery_url_witness :
  http_log (after_get_jwks (auth_b2c.b2c_auth default_settings) cold_world)
  = http_log cold_world
    ++ [("https://" +:+ azure_b2c_tenant_name default_settings +:+ ".b2clogin.com/"
         +:+ azure_b2c_tenant_name default_settings +:+ ".onmicrosoft.com/"
         +:+ azure_b2c_policy_name default_settings +:+ "/discovery/v2.0/keys",
         endpoint cold_world (length (http_log cold_world)))].
Proof.
  apply (get_jwks_requests_discovery_url default_settings cold_world).
  reflexivity.
Defined.

Lemma after_get_jwks_cold_length (self : auth_b2c.AzureADB2CAuth) (w : world) :
  b2c_jwks w = None ->
  length (http_log (after_get_jwks self w)) = S (length (http_log w)).
Proof.
  intros Hcold. unfold after_get_jwks, await.
  rewrite (get_jwks_cold self w Hcold).
  destruct (endpoint w (length (http_log w))) as [|status body];
    [ | destruct ((400 <=? status) && (status <? 600)); [ | destruct body ] ];
    simpl; rewrite length_app; simpl; lia.
Qed.

(** X10: a response whose status is no error and whose body is the JSON
    value [null] is not a failure for [get_jwks]: the call returns [None]
    without raising, the cache stays empty, and the next call sends a
    request again. *)
Theorem get_jwks_null_body (self : auth_b2c.AzureADB2CAuth) (w : world) (status : Z) :
  b2c_jwks w = None ->
  endpoint w (length (http_log w)) = Response status JsonNull ->
  (400 <=? status) && (status <? 600) = false ->
  exists w1,
    await (Coroutine (auth_b2c.get_jwks self)) w = (Ok None, w1)
    /\ b2c_jwks w1 = None
    /\ length (http_log w1) = S (length (http_log w))
    /\ length (http_log (after_get_jwks self w1)) = S (S (length (http_log w))).
Proof.
  intros Hcold Hout Hstatus. unfold await.
  rewrite (get_jwks_cold self w Hcold), Hout, Hstatus.
  eexists. split; [reflexivity|]. split; [reflexivity|].
  split.
  - simpl. rewrite length_app. simpl. lia.
  - rewrite after_get_jwks_cold_length by reflexivity.
    simpl. rewrite length_app. simpl. lia.
Qed.

Lemma get_jwks_null_body_witness :
  exists w1,
    await (Coroutine (auth_b2c.get_jwks b2c)) null_world = (Ok None, w1)
    /\ b2c_jwks w1 = None
    /\ length (http_log w1) = S (length (http_log null_world))
    /\ length (http_log (after_get_jwks b2c w1)) = S (S (length (http_log null_world))).
Proof.
  apply (get_jwks_null_body b2c null_world 200); reflexivity.
Defined.

(** *** The routes behind the resolvers *)

(** X11: the resolver of [auth_b2c.py] never returns a user, and
    [protected_route], which depends on it, never answers: whatever the
    credentials, the outcome is a 401, and neither the key-set cache nor
    the network has been touched. *)
Theorem protected_route_always_401 (validate_email : string -> bool)
    (settings : Settings) (credentials : HTTPAuthorizationCredentials) (w : world) :
  (exists detail,
     auth_b2c.get_current_user validate_email settings credentials w
     = (Raise (HTTPException 401 detail), w))
  /\ (exists detail,
        api_auth.protected_route settings validate_email credentials w
        = (Raise (HTTPException 401 detail), w)).
Proof.
  destruct (b2c_get_current_user_run validate_email settings credentials w)
    as [detail Hrun].
  split; exists detail; [exact Hrun|].
  unfold api_auth.protected_route, depends. now erewrite bind_raise by exact Hrun.
Qed.

(** X12: the routes of [api/auth.py] that depend on the resolver of
    [auth.py] never reach their handler: no token is refreshed and no user
    information is returned, whatever the credentials; the answer is the 401
    of the resolver and no dictionary object has been created. *)
Theorem local_routes_always_401 (settings : Settings) (validate_email : string -> bool)
    (credentials : HTTPAuthorizationCredentials) (w : world) :
  api_auth.refresh_token_route settings validate_email credentials w
  = (Raise (HTTPException 401 "Could not validate credentials"), w)
  /\ api_auth.get_current_user_info_route settings validate_email credentials w
     = (Raise (HTTPException 401 "Could not validate credentials"), w)
  /\ (forall (B : Type) (handler : models_user.User -> M B),
        depends (auth.get_current_user settings validate_email credentials) handler w
        = (Raise (HTTPException 401 "Could not validate credentials"), w)).
Proof.
  assert (Hany : forall (B : Type) (handler : models_user.User -> M B),
            depends (auth.get_current_user settings validate_email credentials) handler w
            = (Raise (HTTPException 401 "Could not validate credentials"), w)).
  { intros B handler. unfold depends.
    erewrite bind_raise by apply get_current_user_always_401. reflexivity. }
  repeat split; try apply Hany.
Qed.

(** *** The handlers of [api/auth.py] *)

(** A token for a dictionary display: the display and its copy are two new
    objects, and every object that was alive keeps its content. *)
Lemma issue_token_run (settings : Settings) (d : gmap string value) (w : world) :
  exists w',
    (forall (B : Type) (k : token -> M B),
        bind (dict_new d)
          (fun data => bind (auth.create_access_token settings data None) k) w
        = k (jose.encode
               (<["exp" := VInt (clock w + 60 * access_token_expire_minutes settings)]> d)
               (secret_key settings) (algorithm settings)) w')
    /\ clock w' = clock w
    /\ (forall l x, heap w !! l = Some x -> heap w' !! l = Some x).
Proof.
  set (l1 := fresh (dom (heap w))).
  set (w1 := set_heap (<[l1 := d]> (heap w)) w).
  assert (Hdata : heap w1 !! l1 = Some d) by apply lookup_insert_eq.
  pose proof (create_access_token_run settings w1 l1 d None Hdata) as Hrun.
  cbv zeta in Hrun. eexists. split; [| split].
  - intros B k. unfold bind at 1. unfold dict_new. fold l1. fold w1.
    erewrite bind_ok by exact Hrun. reflexivity.
  - reflexivity.
  - intros l x Hl. simpl.
    assert (Hl1 : l <> l1).
    { intros ->. apply (is_fresh (dom (heap w))). apply elem_of_dom. eauto. }
    assert (Hw1 : (<[l1 := d]> (heap w)) !! l = Some x) by now rewrite lookup_insert_ne.
    assert (Hl2 : l <> fresh (dom (<[l1 := d]> (heap w)))).
    { intros ->. apply (is_fresh (dom (<[l1 := d]> (heap w)))).
      apply elem_of_dom. eauto. }
    now rewrite !lookup_insert_ne by (symmetry; assumption).
Qed.

(** The claims the handlers put in a token are accepted by the decoder when
    the subject is a string. *)
Lemma accepts_identity_claims (now : Z) (uid : string) (email name : value) :
  accepts_registered_claims now
    (<["sub" := VStr uid]> (<["email" := email]> (<["name" := name]> ∅))) = true.
Proof.
  unfold accepts_registered_claims, jose.validate_iat, jose.validate_nbf,
    jose.validate_other_claims, jose.validate_aud, jose.validate_iss,
    jose.validate_sub, jose.validate_jti, jose.validate_at_hash.
  rewrite lookup_insert_eq.
  rewrite !lookup_insert_ne by discriminate. rewrite !lookup_empty. reflexivity.
Qed.

(** A token that carries the claims of the handlers verifies until its
    expiry and is refused after it. *)
Lemma verify_token_identity_claims (settings : Settings) (uid : string)
    (email name : value) (e : Z) (w : world) :
  auth.verify_token settings
    (jose.encode
       (<["exp" := VInt e]>
          (<["sub" := VStr uid]> (<["email" := email]> (<["name" := name]> ∅))))
       (secret_key settings) (algorithm settings)) w
  = (Ok (if e <? clock w then None
         else Some (<["exp" := VInt e]>
                      (<["sub" := VStr uid]> (<["email" := email]> (<["name" := name]> ∅))))),
     w).
Proof.
  rewrite verify_token_encode
    by (rewrite !lookup_insert_ne by discriminate; now rewrite lookup_empty).
  rewrite accepts_identity_claims. now destruct (e <? clock w).
Qed.

(** X13: [login] gives the same answer to an unknown address and to a wrong
    password, one whose first 72 bytes are not those of the hashed one: the
    401 "Invalid email or password"; nothing is issued and no object is
    created. *)
Theorem login_invalid_credentials (settings : Settings) (container : Container)
    (login_data : LoginRequest) (w : world) :
  passlib.accepted_secret (lr_password login_data) = true ->
  (query_items container (lr_email login_data) = Ok [] ->
   api_auth.login settings (Ok container) login_data w
   = (Raise (HTTPException 401 "Invalid email or password"), w))
  /\ (forall user others salt secret,
        query_items container (lr_email login_data) = Ok (user :: others) ->
        doc_password user = Some (passlib.BcryptHash salt secret) ->
        passlib.bcrypt_input secret <> passlib.bcrypt_input (lr_password login_data) ->
        api_auth.login settings (Ok container) login_data w
        = (Raise (HTTPException 401 "Invalid email or password"), w)).
Proof.
  intros _. split.
  - intros Hquery. unfold api_auth.login, try_except, bind, lift. rewrite Hquery.
    reflexivity.
  - intros user others salt secret Hquery Hpw Hne.
    unfold api_auth.login, try_except, bind, lift. rewrite Hquery.
    unfold getitem_password. rewrite Hpw.
    unfold auth.verify_password, passlib.verify. simpl.
    destruct (String.eqb_spec (passlib.bcrypt_input (lr_password login_data))
                (passlib.bcrypt_input secret)) as [Heq|_];
      [ symmetry in Heq; contradiction | reflexivity ].
Qed.

(** A wrong password for the registered user, and an address nobody
    registered. *)
Lemma login_invalid_credentials_witness :
  (query_items una_container (lr_email (MkLoginRequest "una@example.com" "battery staple"))
   = Ok [] ->
   api_auth.login default_settings (Ok una_container)
     (MkLoginRequest "una@example.com" "battery staple") empty_world
   = (Raise (HTTPException 401 "Invalid email or password"), empty_world))
  /\ (forall user others salt secret,
        query_items una_container
          (lr_email (MkLoginRequest "una@example.com" "battery staple"))
        = Ok (user :: others) ->
        doc_password user = Some (passlib.BcryptHash salt secret) ->
        passlib.bcrypt_input secret
        <> passlib.bcrypt_input
             (lr_password (MkLoginRequest "una@example.com" "battery staple")) ->
        api_auth.login default_settings (Ok una_container)
          (MkLoginRequest "una@example.com" "battery staple") empty_world
        = (Raise (HTTPException 401 "Invalid email or password"), empty_world)).
Proof.
  apply (login_invalid_credentials default_settings una_container
           (MkLoginRequest "una@example.com" "battery staple") empty_world).
  reflexivity.
Defined.

(** X14: what [login] cannot handle ends in the 500 "Failed to login": a
    stored password that is not a hash, a document without a password, a
    store that is not initialised or whose query fails.  Nothing is
    issued. *)
Theorem login_internal_error (settings : Settings) (login_data : LoginRequest)
    (w : world) :
  (forall container user others raw,
      query_items container (lr_email login_data) = Ok (user :: others) ->
      doc_password user = Some (passlib.Unidentified raw) ->
      api_auth.login settings (Ok container) login_data w
      = (Raise (HTTPException 500 "Failed to login"), w))
  /\ (forall container user others,
        query_items container (lr_email login_data) = Ok (user :: others) ->
        doc_password user = None ->
        api_auth.login settings (Ok container) login_data w
        = (Raise (HTTPException 500 "Failed to login"), w))
  /\ (forall e, is_HTTPException e = false ->
        api_auth.login settings (Raise e) login_data w
        = (Raise (HTTPException 500 "Failed to login"), w))
  /\ (forall container e, is_HTTPException e = false ->
        query_items container (lr_email login_data) = Raise e ->
        api_auth.login settings (Ok container) login_data w
        = (Raise (HTTPException 500 "Failed to login"), w)).
Proof.
  repeat split.
  - intros container user others raw Hquery Hpw.
    unfold api_auth.login, try_except, bind, lift. rewrite Hquery.
    unfold getitem_password. rewrite Hpw. reflexivity.
  - intros container user others Hquery Hpw.
    unfold api_auth.login, try_except, bind, lift. rewrite Hquery.
    unfold getitem_password. rewrite Hpw. reflexivity.
  - intros e He. unfold api_auth.login, try_except, bind, lift. simpl.
    rewrite He. reflexivity.
  - intros container e He Hquery.
    unfold api_auth.login, try_except, bind, lift. rewrite Hquery. simpl.
    rewrite He. reflexivity.
Qed.

(** [login] when the password matches, that is, when bcrypt reads of it
    what it read of the hashed secret: the run of the handler. *)
Lemma login_accepts (settings : Settings) (container : Container)
    (login_data : LoginRequest) (w : world) (user : user_doc) (others : list user_doc)
    (salt secret uid : string) (email name : value) :
  query_items container (lr_email login_data) = Ok (user :: others) ->
  doc_password user = Some (passlib.BcryptHash salt secret) ->
  passlib.bcrypt_input (lr_password login_data) = passlib.bcrypt_input secret ->
  doc_entries user !! "id" = Some (VStr uid) ->
  doc_entries user !! "email" = Some email ->
  doc_entries user !! "name" = Some name ->
  let claims :=
    <["exp" := VInt (clock w + 60 * access_token_expire_minutes settings)]>
      (<["sub" := VStr uid]> (<["email" := email]> (<["name" := name]> ∅))) in
  let tok := jose.encode claims (secret_key settings) (algorithm settings) in
  exists w',
    api_auth.login settings (Ok container) login_data w
    = (Ok (MkLoginResponse true
             (Some (MkResponseData tok
                      [("id", VStr uid); ("email", email); ("name", name);
                       ("preferences",
                        dict_get_default (doc_entries user) "preferences" (VDict []));
                       ("household_id", dict_get (doc_entries user) "householdId")]))
             None (Some "Login successful")), w')
    /\ claims !! "household_id" = None
    /\ (forall l x, heap w !! l = Some x -> heap w' !! l = Some x)
    /\ (forall now, now <= clock w + 60 * access_token_expire_minutes settings ->
          (auth.verify_token settings tok (set_clock now w')).1 = Ok (Some claims)).
Proof.
  intros Hquery Hpw Hprefix Hid Hemail Hname claims tok.
  destruct (issue_token_run settings
              (<["sub" := VStr uid]> (<["email" := email]> (<["name" := name]> ∅))) w)
    as (w' & Hissue & Hclock & Hframe).
  exists w'. split; [| split; [| split]].
  - unfold api_auth.login, try_except. unfold bind at 1. unfold lift at 1.
    unfold bind at 1. unfold lift at 1. rewrite Hquery.
    unfold bind at 1. unfold lift at 1. unfold getitem_password. rewrite Hpw.
    unfold bind at 1. unfold lift at 1.
    unfold auth.verify_password, passlib.verify. simpl bool_decide.
    cbv iota. rewrite Hprefix, String.eqb_refl. cbv iota. simpl negb. cbv iota.
    unfold bind at 1. unfold lift at 1. unfold getitem at 1. rewrite Hid.
    unfold bind at 1. unfold lift at 1. unfold getitem at 1. rewrite Hemail.
    unfold bind at 1. unfold lift at 1. unfold getitem at 1. rewrite Hname.
    cbn [negb]. cbv beta iota. rewrite Hissue. reflexivity.
  - unfold claims. now rewrite !lookup_insert_ne by discriminate.
  - exact Hframe.
  - intros now Hnow. unfold tok, claims. rewrite verify_token_identity_claims.
    simpl. destruct (Z.ltb_spec (clock w + 60 * access_token_expire_minutes settings) now);
      [lia | reflexivity].
Qed.

(** X15: with the right password [login] answers with a token whose claims
    are the id, the address and the name of the stored document, nothing
    else but the expiry at the clock plus the configured lifetime (no
    household claim); the token verifies until that expiry, and the objects
    that were alive are unchanged. *)
Theorem login_success (settings : Settings) (container : Container)
    (login_data : LoginRequest) (w : world) (user : user_doc) (others : list user_doc)
    (salt uid : string) (email name : value) :
  query_items container (lr_email login_data) = Ok (user :: others) ->
  doc_password user = Some (passlib.BcryptHash salt (lr_password login_data)) ->
  doc_entries user !! "id" = Some (VStr uid) ->
  doc_entries user !! "email" = Some email ->
  doc_entries user !! "name" = Some name ->
  let claims :=
    <["exp" := VInt (clock w + 60 * access_token_expire_minutes settings)]>
      (<["sub" := VStr uid]> (<["email" := email]> (<["name" := name]> ∅))) in
  let tok := jose.encode claims (secret_key settings) (algorithm settings) in
  exists w',
    api_auth.login settings (Ok container) login_data w
    = (Ok (MkLoginResponse true
             (Some (MkResponseData tok
                      [("id", VStr uid); ("email", email); ("name", name);
                       ("preferences",
                        dict_get_default (doc_entries user) "preferences" (VDict []));
                       ("household_id", dict_get (doc_entries user) "householdId")]))
             None (Some "Login successful")), w')
    /\ claims !! "household_id" = None
    /\ (forall l x, heap w !! l = Some x -> heap w' !! l = Some x)
    /\ (forall now, now <= clock w + 60 * access_token_expire_minutes settings ->
          (auth.verify_token settings tok (set_clock now w')).1 = Ok (Some claims)).
Proof.
  intros Hquery Hpw Hid Hemail Hname.
  exact (login_accepts settings container login_data w user others salt
           (lr_password login_data) uid email name Hquery Hpw eq_refl Hid Hemail Hname).
Qed.

Lemma login_success_witness :
  let claims :=
    <["exp" := VInt (clock empty_world + 60 * access_token_expire_minutes default_settings)]>
      (<["sub" := VStr "u-1"]>
       (<["email" := VStr "una@example.com"]> (<["name" := VStr "Una"]> ∅))) in
  let tok := jose.encode claims (secret_key default_settings) (algorithm default_settings) in
  exists w',
    api_auth.login default_settings (Ok una_container) una_login empty_world
    = (Ok (MkLoginResponse true
             (Some (MkResponseData tok
                      [("id", VStr "u-1"); ("email", VStr "una@example.com");
                       ("name", VStr "Una");
                       ("preferences",
                        dict_get_default (doc_entries una_doc) "preferences" (VDict []));
                       ("household_id", dict_get (doc_entries una_doc) "householdId")]))
             None (Some "Login successful")), w')
    /\ claims !! "household_id" = None
    /\ (forall l x, heap empty_world !! l = Some x -> heap w' !! l = Some x)
    /\ (forall now,
          now <= clock empty_world + 60 * access_token_expire_minutes default_settings ->
          (auth.verify_token default_settings tok (set_clock now w')).1 = Ok (Some claims)).
Proof.
  apply (login_success default_settings una_container una_login empty_world una_doc []
           "salt-1" "u-1" (VStr "una@example.com") (VStr "Una")); reflexivity.
Defined.

(** The handlers that re-raise an [HTTPException] and turn everything else
    into one let nothing but an [HTTPException] out. *)
Lemma try_except_http {A : Type} (body : M A) (status : Z) (detail : string)
    (w w' : world) (e : exn) :
  try_except body
    (fun e => if is_HTTPException e then raise e
              else raise (HTTPException status detail)) w = (Raise e, w') ->
  is_HTTPException e = true.
Proof.
  unfold try_except, raise. destruct (body w) as [[a|e0] w0]; [discriminate|].
  destruct (is_HTTPException e0) eqn:He0; intros [= <- _]; [exact He0 | reflexivity].
Qed.

(** X16: no handler of the authentication routes lets anything but an
    [HTTPException] out, whatever the store does: [login] and [register]
    re-raise the ones they meet and turn every other exception into their
    500, and [get_user_profile] answers every failure with its 500. *)
Theorem handlers_raise_only_HTTPException (settings : Settings)
    (validate_email : string -> bool) (isoformat : Z -> string)
    (get_container : result Container) (w w' : world) (e : exn) :
  (forall login_data,
      api_auth.login settings get_container login_data w = (Raise e, w') ->
      is_HTTPException e = true)
  /\ (forall user_id salt user_data,
        api_auth.register settings isoformat get_container user_id salt user_data w
        = (Raise e, w') ->
        is_HTTPException e = true)
  /\ (forall current_user,
        api_auth.get_user_profile validate_email get_container current_user w
        = (Raise e, w') ->
        e = HTTPException 500 "Failed to get user profile").
Proof.
  split; [| split].
  - intros login_data. apply try_except_http.
  - intros user_id salt user_data. apply try_except_http.
  - intros current_user. unfold api_auth.get_user_profile, try_except, raise.
    match goal with |- context [match ?m w with _ => _ end] => destruct (m w) as [[a|e0] w0] end;
      [discriminate | now intros [= <- _]].
Qed.

(** X17: [refresh_token] cannot fail.  The token it issues carries the id,
    the address and the name of the user and the expiry at the clock plus
    the configured lifetime; the household of the user is not among its
    claims.  The token verifies until its expiry, and the objects that were
    alive are unchanged. *)
Theorem refresh_token_issues (settings : Settings) (current_user : models_user.User)
    (w : world) :
  let claims :=
    <["exp" := VInt (clock w + 60 * access_token_expire_minutes settings)]>
      (<["sub" := VStr (models_user.id current_user)]>
       (<["email" := VStr (models_user.email current_user)]>
        (<["name" := VStr (models_user.name current_user)]> ∅))) in
  let tok := jose.encode claims (secret_key settings) (algorithm settings) in
  exists w',
    api_auth.refresh_token settings current_user w = (Ok tok, w')
    /\ claims !! "household_id" = None
    /\ (forall l x, heap w !! l = Some x -> heap w' !! l = Some x)
    /\ (forall now, now <= clock w + 60 * access_token_expire_minutes settings ->
          (auth.verify_token settings tok (set_clock now w')).1 = Ok (Some claims))
    /\ (forall now, clock w + 60 * access_token_expire_minutes settings < now ->
          (auth.verify_token settings tok (set_clock now w')).1 = Ok None).
Proof.
  intros claims tok.
  destruct (issue_token_run settings
              (<["sub" := VStr (models_user.id current_user)]>
               (<["email" := VStr (models_user.email current_user)]>
                (<["name" := VStr (models_user.name current_user)]> ∅))) w)
    as (w' & Hissue & Hclock & Hframe).
  exists w'. split; [| split; [| split; [| split]]].
  - unfold api_auth.refresh_token, try_except. rewrite Hissue. reflexivity.
  - unfold claims. now rewrite !lookup_insert_ne by discriminate.
  - exact Hframe.
  - intros now Hnow. unfold tok, claims. rewrite verify_token_identity_claims.
    simpl. destruct (Z.ltb_spec (clock w + 60 * access_token_expire_minutes settings) now);
      [lia | reflexivity].
  - intros now Hnow. unfold tok, claims. rewrite verify_token_identity_claims.
    simpl. destruct (Z.ltb_spec (clock w + 60 * access_token_expire_minutes settings) now);
      [reflexivity | lia].
Qed.

(** X18: [register] refuses an address that the store already knows with
    the 400 "Email already registered", before anything is written: the
    answer does not depend on what [create_item] would do, and no object is
    created. *)
Theorem register_existing_email (settings : Settings) (isoformat : Z -> string)
    (container : Container) (user_id salt : string) (user_data : RegisterRequest)
    (w : world) (user : user_doc) (others : list user_doc)
    (create_item' : user_doc -> result user_doc) :
  query_items container (rr_email user_data) = Ok (user :: others) ->
  api_auth.register settings isoformat
    (Ok (MkContainer (query_items container) create_item' (read_item container)))
    user_id salt user_data w
  = (Raise (HTTPException 400 "Email already registered"), w).
Proof.
  intros Hquery.
  unfold api_auth.register, try_except, bind, lift. simpl. rewrite Hquery. reflexivity.
Qed.

Lemma register_existing_email_witness :
  api_auth.register default_settings (fun _ => "1970-01-01T00:16:40")
    (Ok (MkContainer (query_items una_container)
           (fun _ => Raise (RequestsConnectionError "store"))
           (read_item una_container)))
    "u-2" "salt-2" una_request empty_world
  = (Raise (HTTPException 400 "Email already registered"), empty_world).
Proof.
  apply (register_existing_email default_settings (fun _ => "1970-01-01T00:16:40")
           una_container "u-2" "salt-2" una_request empty_world una_doc []
           (fun _ => Raise (RequestsConnectionError "store"))).
  reflexivity.
Defined.

(** X19: the document that [register] writes lets its owner in: when the
    store returns it for the address, [login] with the registered password
    answers with a token whose subject is the id given at registration.  A
    password whose first 72 bytes are not those of the registered one is
    answered with the 401; one that shares them is let in like the
    registered one. *)
Theorem register_then_login (settings : Settings) (isoformat : Z -> string)
    (container : Container) (user_id salt : string) (registered_at : Z)
    (user_data : RegisterRequest) (others : list user_doc) (w : world) :
  passlib.accepted_secret (rr_password user_data) = true ->
  query_items container (rr_email user_data)
  = Ok (api_auth.register_user_doc isoformat user_id registered_at salt user_data :: others) ->
  (forall password,
      passlib.accepted_secret password = true ->
      passlib.bcrypt_input password = passlib.bcrypt_input (rr_password user_data) ->
      exists response w',
        api_auth.login settings (Ok container)
          (MkLoginRequest (rr_email user_data) password) w
        = (Ok response, w')
        /\ success response = true
        /\ (data_token <$> data response)
           = Some (jose.encode
                     (<["exp" := VInt (clock w + 60 * access_token_expire_minutes settings)]>
                        (<["sub" := VStr user_id]>
                         (<["email" := VStr (rr_email user_data)]>
                          (<["name" := VStr (rr_name user_data)]> ∅))))
                     (secret_key settings) (algorithm settings)))
  /\ (forall password,
        passlib.accepted_secret password = true ->
        passlib.bcrypt_input password <> passlib.bcrypt_input (rr_password user_data) ->
        api_auth.login settings (Ok container)
          (MkLoginRequest (rr_email user_data) password) w
        = (Raise (HTTPException 401 "Invalid email or password"), w)).
Proof.
  intros _ Hquery. split.
  - intros password _ Hprefix.
    destruct (login_accepts settings container
                (MkLoginRequest (rr_email user_data) password) w
                (api_auth.register_user_doc isoformat user_id registered_at salt user_data)
                others salt (rr_password user_data) user_id
                (VStr (rr_email user_data)) (VStr (rr_name user_data)))
      as (w' & Hrun & _); try reflexivity; [exact Hquery | exact Hprefix |].
    eexists _, w'. split; [exact Hrun|]. split; reflexivity.
  - intros password _ Hne.
    unfold api_auth.login, try_except, bind, lift. simpl. rewrite Hquery. simpl.
    destruct (String.eqb_spec (passlib.bcrypt_input password)
                (passlib.bcrypt_input (rr_password user_data))) as [Heq|_];
      [contradiction | reflexivity].
Qed.

Lemma register_then_login_witness :
  (forall password,
      passlib.accepted_secret password = true ->
      passlib.bcrypt_input password = passlib.bcrypt_input (rr_password una_request) ->
      exists response w',
        api_auth.login default_settings (Ok una_container)
          (MkLoginRequest (rr_email una_request) password) empty_world
        = (Ok response, w')
        /\ success response = true
        /\ (data_token <$> data response)
           = Some (jose.encode
                     (<["exp" := VInt (clock empty_world
                                       + 60 * access_token_expire_minutes default_settings)]>
                        (<["sub" := VStr "u-1"]>
                         (<["email" := VStr (rr_email una_request)]>
                          (<["name" := VStr (rr_name una_request)]> ∅))))
                     (secret_key default_settings) (algorithm default_settings)))
  /\ (forall password,
        passlib.accepted_secret password = true ->
        passlib.bcrypt_input password <> passlib.bcrypt_input (rr_password una_request) ->
        api_auth.login default_settings (Ok una_container)
          (MkLoginRequest (rr_email una_request) password) empty_world
        = (Raise (HTTPException 401 "Invalid email or password"), empty_world)).
Proof.
  apply (register_then_login default_settings (fun _ => "1970-01-01T00:16:40")
           una_container "u-1" "salt-1" 1000 una_request [] empty_world);
    reflexivity.
Defined.

(** X20: [get_user_profile] cannot show the profile of a user that
    [register] wrote: the document keeps its timestamps under [createdAt]
    and [updatedAt], the [User] built from it lacks [created_at] and
    [updated_at], and the answer is the 500 of the handler. *)
Theorem get_user_profile_of_registered (validate_email : string -> bool)
    (isoformat : Z -> string) (container : Container) (current_user : models_user.User)
    (user_id salt : string) (registered_at : Z) (user_data : RegisterRequest) (w : world) :
  read_item container (models_user.id current_user)
  = Ok (api_auth.register_user_doc isoformat user_id registered_at salt user_data) ->
  api_auth.get_user_profile validate_email (Ok container) current_user w
  = (Raise (HTTPException 500 "Failed to get user profile"), w).
Proof.
  intros Hread. unfold api_auth.get_user_profile, try_except, bind, lift. simpl.
  rewrite Hread.
  match goal with
  | |- context [models_user.User_init ?ve ?kw] =>
      destruct (User_init_requires_created_at ve kw) as (fields & -> & _);
      [ simpl; now rewrite !lookup_insert_ne by discriminate | reflexivity ]
  end.
Qed.

Lemma get_user_profile_of_registered_witness :
  api_auth.get_user_profile validate_email_all (Ok una_container) una_user empty_world
  = (Raise (HTTPException 500 "Failed to get user profile"), empty_world).
Proof.
  apply (get_user_profile_of_registered validate_email_all
           (fun _ => "1970-01-01T00:16:40") una_container una_user
           "u-1" "salt-1" 1000 una_request empty_world).
  reflexivity.
Defined.


